(** * lol_skin: the skin browser of [exec2.py]

    A shallow embedding of the helpers, the event handlers and the
    background tasks of [exec2.py], and the properties of its
    specification stated against them.

    Conventions.
    - A Python [str] is a [string]; [startswith] is [String.prefix] and
      an f-string is concatenation.
    - A JSON object read with [d["k"]] has the field [k]; one read with
      [d.get("k", default)] has an optional field.
    - A function that can raise returns a [Result]; [try/except] is a
      [match] on it.  A handler that can raise after it has written to
      the state returns the state together with a [Result].
    - The network, the file system permissions and the path join of the
      platform are explicit arguments. *)

From stdpp Require Import gmap strings list pretty sorting.
From Stdlib Require Import ZArith Lia Ascii String.

Local Open Scope string_scope.
Local Open Scope Z_scope.

(** ** Exceptions and results *)

(** The classes of exception the program can see.  [requests.get],
    [raise_for_status] and [resp.json()] raise subclasses of
    [requests.exceptions.RequestException]; [open] raises [OSError]; a
    name that is bound neither in the module nor in the builtins raises
    [NameError]; subscripting [None] raises [TypeError] and a missing
    key [KeyError]; a body that is not a picture raises a [ValueError]
    subclass; [LocationParseError] is the exception of urllib3 that
    [requests.get] lets through for a host it cannot parse, and it is
    not a [RequestException]. *)
Inductive ExcClass :=
  | RequestException
  | OSError
  | NameError
  | TypeError
  | KeyError
  | ValueError
  | LocationParseError.

Record Exn := mkExn { exc_class : ExcClass; exc_msg : string }.

(** [str(e)] as used by the f-strings of the handlers. *)
Definition str_exn (e : Exn) : string := exc_msg e.

Inductive Result (A : Type) :=
  | Ok (a : A)
  | Raise (e : Exn).
Arguments Ok {A} a.
Arguments Raise {A} e.

#[global] Instance Result_bind : MBind Result := fun A B k r =>
  match r with
  | Ok a => k a
  | Raise e => Raise e
  end.

#[global] Instance Result_ret : MRet Result := fun A a => Ok a.

(** ** Helpers *)

Module Helpers.

(** The prefix of the last line of [normalize_cdragon_path]. *)
Definition CDRAGON_BASE : string := "https://raw.communitydragon.org/latest".

(** [path.startswith(p)] *)
Definition startswith (path p : string) : bool := String.prefix p path.

(** [normalize_cdragon_path(path: str | None) -> str]; [None] and the
    empty string are the two falsy arguments. *)
Definition normalize_cdragon_path (path : option string) : string :=
  match path with
  | None => ""
  | Some "" => ""
  | Some path =>
      if startswith path "http://" || startswith path "https://" then path
      else
        let path := if negb (startswith path "/") then "/" ++ path else path in
        CDRAGON_BASE ++ path
  end.

(** An absolute URL, as line 30 tests it. *)
Definition is_absolute_url (path : string) : bool :=
  startswith path "http://" || startswith path "https://".

(** [path] without its leading slash, when it has one. *)
Definition drop_leading_slash (path : string) : string :=
  match path with
  | String "/"%char rest => rest
  | _ => path
  end.

End Helpers.

(** ** Data model: the JSON documents of the catalog API *)

(** A chroma: [c["name"]] is read as a required key, [splashPath] with
    [.get]. *)
Record Chroma := mkChroma {
  chroma_name : string;
  chroma_splashPath : option string
}.

(** A skin: [s["name"]] is required; [isBase], [splashPath] and
    [chromas] are read with [.get] and may be absent. *)
Record Skin := mkSkin {
  skin_name : string;
  skin_isBase : option bool;
  skin_splashPath : option string;
  skin_chromas : option (list Chroma)
}.

(** The document of one champion: [data["skins"]] is required. *)
Record ChampionDetail := mkDetail {
  detail_id : Z;
  detail_skins : list Skin
}.

(** What [resp.json()] returns for a champion and what line 179 stores:
    an object of the documented shape, or another JSON value.
    [Other truthy e] is a JSON value that is not an object with a
    [skins] key (an object without that key, a list, a string, a number,
    a boolean or null): [truthy] is its truth value and [e] is what
    [value["skins"]] raises on it, a [KeyError] for an object and a
    [TypeError] otherwise.  An object whose [skins] is not a list of
    skins of the documented shape is outside this model. *)
Inductive Document :=
  | Detail (d : ChampionDetail)
  | Other (truthy : bool) (e : Exn).

(** An entry of the champion summary: [c["name"]] and [c["id"]]. *)
Record Champion := mkChampion {
  champ_id : Z;
  champ_name : string
}.

(** ** The network *)

(** A [requests.Response]: its status line, the URL it answers, its
    body, and what [resp.json()] gives on it (the decoded value, or the
    decoding error it raises). *)
Record Response := mkResponse {
  status_code : Z;
  reason : string;
  url : string;
  content : string;
  json : Result Document
}.

(** What [requests.get(url, timeout=t)] does: it returns a response, or
    it raises.  The exceptions the library raises itself
    (ConnectionError, Timeout, InvalidURL, ...) are [RequestException]s;
    [Raised msg] is one whose [str()] is [msg].  For a URL whose host
    urllib3 cannot parse (an empty label, as in [https://a..b/x.png])
    the library lets urllib3's [LocationParseError] through unwrapped;
    [Leaked msg] is that exception, with [str()] equal to [msg]. *)
Inductive GetOutcome :=
  | Returned (r : Response)
  | Raised (msg : string)
  | Leaked (msg : string).

(** The state of the network when a request is issued. *)
Record Net := mkNet {
  requests_get : string -> Z -> GetOutcome
}.

Module Requests.

(** [requests.get] as a computation that can raise. *)
Definition get (net : Net) (url : string) (timeout : Z) : Result Response :=
  match requests_get net url timeout with
  | Returned r => Ok r
  | Raised msg => Raise (mkExn RequestException msg)
  | Leaked msg => Raise (mkExn LocationParseError msg)
  end.

(** [resp.raise_for_status()]: an HTTPError for a 4xx or a 5xx status,
    with the message the library builds. *)
Definition raise_for_status (resp : Response) : Result unit :=
  let status := status_code resp in
  if (400 <=? status) && (status <? 500)
  then Raise (mkExn RequestException
                (pretty status ++ " Client Error: " ++ reason resp
                   ++ " for url: " ++ url resp))
  else if (500 <=? status) && (status <? 600)
  then Raise (mkExn RequestException
                (pretty status ++ " Server Error: " ++ reason resp
                   ++ " for url: " ++ url resp))
  else Ok tt.

(** [resp.json()] *)
Definition json_of (resp : Response) : Result Document := json resp.

End Requests.

Module Fetch.
Import Helpers.

(** [fetch_json(url)] *)
Definition fetch_json (net : Net) (url : string) : Result Document :=
  resp ← Requests.get net url 30;
  _ ← Requests.raise_for_status resp;
  Requests.json_of resp.

(** [check_url_exists(url)]: the [except] clause catches the
    [RequestException]s and nothing else. *)
Definition check_url_exists (net : Net) (url : string) : Result bool :=
  match requests_get net url 30 with
  | Returned response => Ok (status_code response =? 200)
  | Raised _ => Ok false
  | Leaked msg => Raise (mkExn LocationParseError msg)
  end.

(** [str(cid)] for an integer. *)
Definition str_int (cid : Z) : string := pretty cid.

Definition CHAMPIONS_URL : string :=
  "https://raw.communitydragon.org/latest/plugins/rcp-be-lol-game-data/global/default/v1/champions/".

(** [get_champion_detail(cid)] *)
Definition get_champion_detail (net : Net) (cid : Z) : Result Document :=
  fetch_json net (CHAMPIONS_URL ++ str_int cid ++ ".json").

End Fetch.

(** ** Downloading an archive *)

(** The platform under the download: [pathlib]'s join ([dir / name]) and
    whether [open(path, 'wb')] succeeds ([Some msg]: it raises an
    [OSError] whose [str()] is [msg]). *)
Record OS := mkOS {
  joinpath : string -> string -> string;
  open_wb : string -> option string
}.

Module Download.

Definition GITHUB_ZIP_BASE : string :=
  "https://raw.githubusercontent.com/darkseal-org/lol-skins/main/skins/".

(** [download_zip(champion, zip_name, target_dir)] over the files of the
    disk, a map from path to content.  The file is written only when the
    request succeeded and the file opened; the result is the path.
    [open_wb] stands for the [open] and the [write] of lines 63-64
    together: a write that fails after the file was opened and truncated
    is not modelled, and no statement below speaks of the disk after a
    failure to open or to write. *)
Definition download_zip (os : OS) (net : Net)
    (champion zip_name target_dir : string) (files : gmap string string)
  : Result string * gmap string string :=
  let url := GITHUB_ZIP_BASE ++ champion ++ "/" ++ zip_name in
  match Requests.get net url 60 with
  | Raise e => (Raise e, files)
  | Ok response =>
      match Requests.raise_for_status response with
      | Raise e => (Raise e, files)
      | Ok _ =>
          let target_file := joinpath os target_dir zip_name in
          match open_wb os target_file with
          | Some msg => (Raise (mkExn OSError msg), files)
          | None => (Ok target_file, <[target_file := content response]> files)
          end
      end
  end.

End Download.

(** ** The application state *)

(** A decoded picture and the library that decodes it. *)
Record Image := mkImage {
  img_width : Z;
  img_height : Z;
  img_data : string
}.

(** [Image.open(io.BytesIO(b))], [img.resize((w, h))] and
    [ImageTk.PhotoImage(img)] of the imaging library. *)
Record Imaging := mkImaging {
  Image_open : string -> Result Image;
  Image_resample : Image -> Z -> Z -> string;
  PhotoImage : Image -> Result Image
}.

Definition Image_resize (pil : Imaging) (img : Image) (w h : Z) : Image :=
  {| img_width := w; img_height := h; img_data := Image_resample pil img w h |}.

(** The attributes of [SkinChangerApp] and the options of its widgets
    that the handlers read or write. *)
Record App := mkApp {
  champions : list Champion;
  current_champion_data : option Document;
  var_champion : string;
  var_skin : string;
  var_chroma : string;
  cmb_champion_values : list string;
  cmb_skin_values : list string;
  cmb_chroma_values : list string;
  preview_text : string;            (* preview_label's text option *)
  preview_image : option Image;     (* preview_label's image option *)
  preview_label_image : option Image; (* the attribute preview_label.image *)
  var_status : string
}.

Definition set_current_champion_data (v : option Document) (a : App) : App :=
  mkApp (champions a) v (var_champion a) (var_skin a) (var_chroma a)
    (cmb_champion_values a) (cmb_skin_values a) (cmb_chroma_values a)
    (preview_text a) (preview_image a) (preview_label_image a) (var_status a).

Definition set_var_champion (v : string) (a : App) : App :=
  mkApp (champions a) (current_champion_data a) v (var_skin a) (var_chroma a)
    (cmb_champion_values a) (cmb_skin_values a) (cmb_chroma_values a)
    (preview_text a) (preview_image a) (preview_label_image a) (var_status a).

Definition set_var_skin (v : string) (a : App) : App :=
  mkApp (champions a) (current_champion_data a) (var_champion a) v (var_chroma a)
    (cmb_champion_values a) (cmb_skin_values a) (cmb_chroma_values a)
    (preview_text a) (preview_image a) (preview_label_image a) (var_status a).

Definition set_var_chroma (v : string) (a : App) : App :=
  mkApp (champions a) (current_champion_data a) (var_champion a) (var_skin a) v
    (cmb_champion_values a) (cmb_skin_values a) (cmb_chroma_values a)
    (preview_text a) (preview_image a) (preview_label_image a) (var_status a).

Definition set_cmb_skin_values (v : list string) (a : App) : App :=
  mkApp (champions a) (current_champion_data a) (var_champion a) (var_skin a)
    (var_chroma a) (cmb_champion_values a) v (cmb_chroma_values a)
    (preview_text a) (preview_image a) (preview_label_image a) (var_status a).

Definition set_cmb_chroma_values (v : list string) (a : App) : App :=
  mkApp (champions a) (current_champion_data a) (var_champion a) (var_skin a)
    (var_chroma a) (cmb_champion_values a) (cmb_skin_values a) v
    (preview_text a) (preview_image a) (preview_label_image a) (var_status a).

Definition set_preview_text (v : string) (a : App) : App :=
  mkApp (champions a) (current_champion_data a) (var_champion a) (var_skin a)
    (var_chroma a) (cmb_champion_values a) (cmb_skin_values a)
    (cmb_chroma_values a) v (preview_image a) (preview_label_image a)
    (var_status a).

Definition set_preview_image (v : option Image) (a : App) : App :=
  mkApp (champions a) (current_champion_data a) (var_champion a) (var_skin a)
    (var_chroma a) (cmb_champion_values a) (cmb_skin_values a)
    (cmb_chroma_values a) (preview_text a) v (preview_label_image a)
    (var_status a).

Definition set_preview_label_image (v : option Image) (a : App) : App :=
  mkApp (champions a) (current_champion_data a) (var_champion a) (var_skin a)
    (var_chroma a) (cmb_champion_values a) (cmb_skin_values a)
    (cmb_chroma_values a) (preview_text a) (preview_image a) v (var_status a).

Definition set_var_status (v : string) (a : App) : App :=
  mkApp (champions a) (current_champion_data a) (var_champion a) (var_skin a)
    (var_chroma a) (cmb_champion_values a) (cmb_skin_values a)
    (cmb_chroma_values a) (preview_text a) (preview_image a)
    (preview_label_image a) v.

(** ** Names bound in the module *)

Module Globals.

(** The names [exec2.py] binds at module level: its imports, its
    constants, its functions and its class. *)
Definition module_globals : list string :=
  [ "io"; "os"; "subprocess"; "threading"; "requests"; "Path";
    "messagebox"; "tk"; "ttk"; "shutil";
    "USER_PROFILE"; "LOCAL_SKIN_CACHE"; "GITHUB_ZIP_BASE";
    "fetch_json"; "normalize_cdragon_path"; "check_url_exists";
    "get_champion_summary"; "get_champion_detail"; "download_zip";
    "open_explorer"; "SkinChangerApp" ].

(** Loading a global name: it resolves when [globals] binds it (no
    builtin is called [Image] or [ImageTk]) and raises [NameError]
    otherwise. *)
Definition load_global (globals : list string) (name : string) : Result unit :=
  if existsb (String.eqb name) globals then Ok tt
  else Raise (mkExn NameError ("name '" ++ name ++ "' is not defined")).

End Globals.

(** ** Background tasks and event handlers *)

(** A thread started with [threading.Thread(target=..., args=...)]. *)
Inductive Task :=
  | LoadChampData (cid : Z)
  | ShowImageTask (url : string).

Module SkinChangerApp.
Import Helpers Fetch Globals.

Definition PLACEHOLDER : string := "—".
Definition NO_IMAGE : string := "[Impossible d'afficher l'image]".

(** The names of the skins that are not base skins, in the order of the
    document: [[s["name"] for s in skins if not s.get("isBase", False)]]. *)
Definition selectable_skins (skins : list Skin) : list string :=
  map skin_name
    (List.filter (fun s => negb (default false (skin_isBase s))) skins).

(** [next((c for c in self.champions if c["name"] == champ_name), None)] *)
Definition find_champion (cs : list Champion) (name : string)
  : option Champion :=
  List.find (fun c => String.eqb (champ_name c) name) cs.

(** [next((s for s in data["skins"] if s["name"] == skin_name), None)] *)
Definition find_skin (skins : list Skin) (name : string) : option Skin :=
  List.find (fun s => String.eqb (skin_name s) name) skins.

(** [next((c for c in chromas if c["name"] == chroma_name), None)] *)
Definition find_chroma (chromas : list Chroma) (name : string)
  : option Chroma :=
  List.find (fun c => String.eqb (chroma_name c) name) chromas.

(** [on_champion_selected]: the handler returns the new state and the
    threads it started. *)
Definition on_champion_selected (self : App) : App * list Task :=
  let champ_name := var_champion self in
  if String.eqb champ_name "" then (self, [])
  else
    match find_champion (champions self) champ_name with
    | None => (self, [])
    | Some champ =>
        (set_var_status "Chargement des skins…" self,
         [LoadChampData (champ_id champ)])
    end.

(** The body of the [try] of [_load_champ_data], up to the local
    [skins]: line 179 stores the document, line 180 reads it back from
    [self]. *)
Definition load_store (net : Net) (cid : Z) (self : App) : Result App :=
  d ← get_champion_detail net cid;
  Ok (set_current_champion_data (Some d) self).

Definition load_skins (self : App) : Result (list string) :=
  match current_champion_data self with
  | Some (Detail d) => Ok (selectable_skins (detail_skins d))
  | Some (Other _ e) => Raise e
  | None => Raise (mkExn TypeError "'NoneType' object is not subscriptable")
  end.

(** The [except] clause of [_load_champ_data]. *)
Definition load_except (e : Exn) (self : App) : App :=
  set_var_status ("Erreur chargement skins : " ++ str_exn e) self.

(** [_load_champ_data(cid)], run without interruption. *)
Definition _load_champ_data (net : Net) (cid : Z) (self : App) : App :=
  match load_store net cid self with
  | Raise e => load_except e self
  | Ok self =>
      match load_skins self with
      | Raise e => load_except e self
      | Ok skins =>
          let self := set_cmb_skin_values skins self in
          let self := set_var_skin "" self in
          let self := set_cmb_chroma_values [] self in
          let self := set_var_chroma "" self in
          set_var_status "Sélectionnez un skin." self
      end
  end.

(** [_show_image_async(path)], up to the start of its thread: the
    existence check runs in the caller and its exception, if any, leaves
    the method before anything is written. *)
Definition _show_image_async (net : Net) (path : option string) (self : App)
  : App * Result (list Task) :=
  let url := normalize_cdragon_path path in
  if String.eqb url "" then (set_preview_text NO_IMAGE self, Ok [])
  else
    match check_url_exists net url with
    | Raise e => (self, Raise e)
    | Ok false => (set_preview_text NO_IMAGE self, Ok [])
    | Ok true => (self, Ok [ShowImageTask url])
    end.

(** The body of the [try] of the nested [task], up to [photo].  [Image]
    and [ImageTk] are looked up among the names the module binds. *)
Definition show_image_try (globals : list string) (pil : Imaging) (net : Net)
    (url : string) : Result Image :=
  img_data ← Requests.get net url 30;
  _ ← Requests.raise_for_status img_data;
  _ ← load_global globals "Image";
  opened ← Image_open pil (content img_data);
  let img_pil := Image_resize pil opened 512 288 in
  _ ← load_global globals "ImageTk";
  PhotoImage pil img_pil.

(** The nested [task] of [_show_image_async], for a module that binds
    [globals]. *)
Definition show_image_task_in (globals : list string) (pil : Imaging)
    (net : Net) (url : string) (self : App) : App :=
  match show_image_try globals pil net url with
  | Ok photo =>
      let self := set_preview_label_image (Some photo) self in
      set_preview_text "" (set_preview_image (Some photo) self)
  | Raise e =>
      set_preview_text ("[Impossible d'afficher] " ++ str_exn e) self
  end.

(** The nested [task] as [exec2.py] runs it. *)
Definition show_image_task : Imaging -> Net -> string -> App -> App :=
  show_image_task_in module_globals.

(** Whether [not self.current_champion_data] holds. *)
Definition falsy (data : option Document) : bool :=
  match data with
  | None => true
  | Some (Detail _) => false
  | Some (Other truthy _) => negb truthy
  end.

(** [on_skin_selected]: the chroma widgets are written before the
    preview is requested, so they keep their new values when that
    request raises. *)
Definition on_skin_selected (net : Net) (self : App)
  : App * Result (list Task) :=
  let skin_name := var_skin self in
  if String.eqb skin_name "" || falsy (current_champion_data self)
  then (self, Ok [])
  else
    match current_champion_data self with
    | None => (self, Ok [])
    | Some (Other _ e) => (self, Raise e)
    | Some (Detail data) =>
        match find_skin (detail_skins data) skin_name with
        | None => (self, Ok [])
        | Some skin =>
            let chroma_names :=
              map chroma_name (default [] (skin_chromas skin)) in
            let self :=
              set_cmb_chroma_values
                (match chroma_names with [] => [PLACEHOLDER] | _ => chroma_names end)
                self in
            let self :=
              set_var_chroma
                (match chroma_names with [] => PLACEHOLDER | c :: _ => c end)
                self in
            _show_image_async net (skin_splashPath skin) self
        end
    end.

(** [on_chroma_selected]: the one handler that subscripts
    [self.current_champion_data] without testing it. *)
Definition on_chroma_selected (net : Net) (self : App)
  : App * Result (list Task) :=
  let chroma_name := var_chroma self in
  if String.eqb chroma_name PLACEHOLDER || String.eqb chroma_name ""
  then (self, Ok [])
  else
    match current_champion_data self with
    | None =>
        (self, Raise (mkExn TypeError "'NoneType' object is not subscriptable"))
    | Some (Other _ e) => (self, Raise e)
    | Some (Detail data) =>
        match find_skin (detail_skins data) (var_skin self) with
        | None => (self, Ok [])
        | Some skin =>
            match find_chroma (default [] (skin_chromas skin)) chroma_name with
            | None => (self, Ok [])
            | Some chroma =>
                _show_image_async net (chroma_splashPath chroma) self
            end
        end
    end.

(** Run a started thread to its end. *)
Definition run_task (pil : Imaging) (net : Net) (t : Task) (self : App) : App :=
  match t with
  | LoadChampData cid => _load_champ_data net cid self
  | ShowImageTask url => show_image_task pil net url self
  end.

End SkinChangerApp.

(** ** Threads: [_load_champ_data] statement by statement *)

(** Several [_load_champ_data] threads can be alive at once; each runs
    the statements of lines 179 to 187 in order, and the interpreter may
    switch thread between two statements.  A statement here makes one
    read or one write of the shared state. *)
Module Threads.
Import SkinChangerApp.

(** The next statement of a thread, by its line; [L187 e] is the
    [except] clause entered with [e]. *)
Inductive Line :=
  | L179 | L180 | L181 | L182 | L183 | L184 | L185
  | L187 (e : Exn)
  | Lend.

(** A thread of [_load_champ_data]: its argument, its next statement
    and its local [skins]. *)
Record LoadThread := mkThread {
  lt_cid : Z;
  lt_line : Line;
  lt_skins : list string
}.

Definition goto (l : Line) (t : LoadThread) : LoadThread :=
  mkThread (lt_cid t) l (lt_skins t).

(** One statement of thread [t] on the shared state [self]. *)
Definition step (net : Net) (t : LoadThread) (self : App) : LoadThread * App :=
  match lt_line t with
  | L179 =>
      match load_store net (lt_cid t) self with
      | Ok self' => (goto L180 t, self')
      | Raise e => (goto (L187 e) t, self)
      end
  | L180 =>
      match load_skins self with
      | Ok skins => (mkThread (lt_cid t) L181 skins, self)
      | Raise e => (goto (L187 e) t, self)
      end
  | L181 => (goto L182 t, set_cmb_skin_values (lt_skins t) self)
  | L182 => (goto L183 t, set_var_skin "" self)
  | L183 => (goto L184 t, set_cmb_chroma_values [] self)
  | L184 => (goto L185 t, set_var_chroma "" self)
  | L185 => (goto Lend t, set_var_status "Sélectionnez un skin." self)
  | L187 e => (goto Lend t, load_except e self)
  | Lend => (t, self)
  end.

(** The application and its live threads. *)
Record Sys := mkSys {
  sys_app : App;
  sys_threads : list LoadThread
}.

(** [threading.Thread(target=self._load_champ_data, args=(cid,)).start()] *)
Definition spawn (tasks : list Task) : list LoadThread :=
  omap (fun t => match t with
                 | LoadChampData cid => Some (mkThread cid L179 [])
                 | ShowImageTask _ => None
                 end) tasks.

(** The user picks [name] in the champion selector: the selector's
    variable takes the name and the handler runs. *)
Definition select_champion (name : string) (s : Sys) : Sys :=
  let '(a, tasks) := on_champion_selected (set_var_champion name (sys_app s)) in
  mkSys a (sys_threads s ++ spawn tasks).

(** Thread number [i] runs one statement. *)
Definition step_thread (net : Net) (i : nat) (s : Sys) : Sys :=
  match sys_threads s !! i with
  | None => s
  | Some t =>
      let '(t', a) := step net t (sys_app s) in
      mkSys a (<[i := t']> (sys_threads s))
  end.

(** A schedule lists, in order, the thread that runs the next
    statement. *)
Definition run (net : Net) (sched : list nat) (s : Sys) : Sys :=
  foldl (fun s i => step_thread net i s) s sched.

(** Thread [t] runs [k] statements in a row. *)
Fixpoint steps (net : Net) (k : nat) (t : LoadThread) (self : App)
  : LoadThread * App :=
  match k with
  | O => (t, self)
  | S k => let '(t', self') := step net t self in steps net k t' self'
  end.

Definition ended (t : LoadThread) : bool :=
  match lt_line t with Lend => true | _ => false end.

(** Every thread has run to its end. *)
Definition finished (s : Sys) : bool := forallb ended (sys_threads s).

End Threads.

(** ** Sample worlds *)

(** What [resp.json()] raises on a body that is not JSON. *)
Definition not_json : Result Document :=
  Raise (mkExn RequestException "Expecting value: line 1 column 1 (char 0)").

(** A 200 response with body [body], and a 404 response. *)
Definition ok_response (body : string) : Response :=
  mkResponse 200 "OK" "https://raw.communitydragon.org/latest/a.png" body not_json.

Definition not_found : Response :=
  mkResponse 404 "Not Found" "https://raw.communitydragon.org/latest/a.png" ""
    not_json.

(** The network that answers every GET with [r]. *)
Definition always (r : Response) : Net := mkNet (fun _ _ => Returned r).

(** A network on which the host of [https://a..b/x.png] cannot be
    parsed: urllib3 raises its [LocationParseError] and [requests.get]
    lets it through. *)
Definition bad_host : Net :=
  mkNet (fun url _ =>
    if String.eqb url "https://a..b/x.png"
    then Leaked "Failed to parse: 'a..b', label empty or too long"
    else Returned not_found).

(** The network on which every GET fails with [msg]. *)
Definition down (msg : string) : Net := mkNet (fun _ _ => Raised msg).

Definition sample_image : Image := mkImage 1215 717 "pixels".

(** An imaging library that decodes every body. *)
Definition sample_pil : Imaging :=
  mkImaging (fun _ => Ok sample_image) (fun img _ _ => img_data img) Ok.

Definition blank_app : App :=
  mkApp [] None "" "" "" [] [] [] "" None None "Chargement des champions…".

(** A platform that joins with a slash and opens every file. *)
Definition sample_os : OS :=
  mkOS (fun dir name => dir ++ "/" ++ name) (fun _ => None).

Definition ahri : ChampionDetail :=
  mkDetail 103
    [ mkSkin "Ahri" (Some true) (Some "/assets/ahri_0.jpg") None;
      mkSkin "Dynasty Ahri" (Some false) (Some "/assets/ahri_1.jpg") (Some []);
      mkSkin "Midnight Ahri" None None None;
      mkSkin "K/DA Ahri" (Some false) (Some "/assets/ahri_15.jpg")
        (Some [mkChroma "Ruby" (Some "/assets/ahri_16.jpg")]) ].

Definition zed : ChampionDetail :=
  mkDetail 238
    [ mkSkin "Zed" (Some true) None None;
      mkSkin "Shockblade Zed" (Some false) None None ].

Definition catalog : list Champion := [mkChampion 103 "Ahri"; mkChampion 238 "Zed"].

(** The catalog API serving [ahri] and [zed]; any other URL is not
    found. *)
Definition cdragon : Net :=
  mkNet (fun url _ =>
    if String.eqb url (Fetch.CHAMPIONS_URL ++ "103.json")
    then Returned (mkResponse 200 "OK" url "{...}" (Ok (Detail ahri)))
    else if String.eqb url (Fetch.CHAMPIONS_URL ++ "238.json")
    then Returned (mkResponse 200 "OK" url "{...}" (Ok (Detail zed)))
    else Returned (mkResponse 404 "Not Found" url "" not_json)).

(** The same API when the document of Zed is the object
    [{"id": 238}], which has no [skins] key. *)
Definition cdragon_no_skins : Net :=
  mkNet (fun url _ =>
    if String.eqb url (Fetch.CHAMPIONS_URL ++ "238.json")
    then Returned (mkResponse 200 "OK" url "{...}"
                     (Ok (Other true (mkExn KeyError "'skins'"))))
    else requests_get cdragon url 30).

(** The application once the catalog is loaded. *)
Definition loaded_app : App :=
  mkApp catalog None "" "" "" ["Ahri"; "Zed"] [] [] "" None None
    "Choisissez un champion.".

(** The user picks [name] and the detail fetch runs to its end on the
    network [net], with no other thread in between. *)
Definition pick_and_load (pil : Imaging) (net : Net) (name : string) (self : App)
  : App :=
  let '(self1, started) :=
    SkinChangerApp.on_champion_selected (set_var_champion name self) in
  foldl (fun a t => SkinChangerApp.run_task pil net t a) self1 started.

(** Ahri's skins are listed; then the network goes down and the user
    picks Zed. *)
Definition ahri_listed : App := pick_and_load sample_pil cdragon "Ahri" loaded_app.

Definition zed_failed : App :=
  pick_and_load sample_pil (down "timed out") "Zed" ahri_listed.

(** ** What the threads preserve *)

Module Race.
Import Fetch SkinChangerApp Threads.

(** [d] is a document the network serves for one of the champion ids
    [cids]. *)
Definition fetched (net : Net) (cids : list Z) (d : ChampionDetail) : Prop :=
  exists cid, In cid cids /\ get_champion_detail net cid = Ok (Detail d).

Definition good_data (net : Net) (cids : list Z) (a : App) : Prop :=
  exists d, current_champion_data a = Some (Detail d) /\ fetched net cids d.

Definition good_list (net : Net) (cids : list Z) (l : list string) : Prop :=
  exists d, l = selectable_skins (detail_skins d) /\ fetched net cids d.

(** What holds of a thread and the shared state before each statement,
    when every fetch succeeds: past line 179 the stored document is a
    fetched one, past line 180 the local [skins] comes from a fetched
    document, and past line 181 so does the skin selector. *)
Definition thread_inv (net : Net) (cids : list Z) (a : App) (t : LoadThread)
  : Prop :=
  In (lt_cid t) cids
  /\ match lt_line t with
     | L179 => True
     | L180 => good_data net cids a
     | L181 => good_data net cids a /\ good_list net cids (lt_skins t)
     | L182 | L183 | L184 | L185 | Lend =>
         good_data net cids a /\ good_list net cids (lt_skins t)
         /\ good_list net cids (cmb_skin_values a)
     | L187 _ => False
     end.

Definition sys_inv (net : Net) (cids : list Z) (s : Sys) : Prop :=
  Forall (thread_inv net cids (sys_app s)) (sys_threads s).

(** Thread 0 (the first selection) runs to its end, then thread 1. *)
Definition first_then_second : list nat := replicate 7 0%nat ++ replicate 7 1%nat.

(** Thread 1 (the second selection) runs to its end, then thread 0: the
    first fetch resolves last. *)
Definition second_then_first : list nat := replicate 7 1%nat ++ replicate 7 0%nat.

(** The user picks Ahri, then Zed before Ahri's fetch resolves; Zed's
    fetch resolves first. *)
Definition ahri_then_zed : Sys :=
  select_champion "Zed" (select_champion "Ahri" (mkSys loaded_app [])).

Definition stale_ahri : Sys := run cdragon second_then_first ahri_then_zed.

End Race.

(** ** Loading the catalog *)

Module Catalog.

Definition set_champions (v : list Champion) (a : App) : App :=
  mkApp v (current_champion_data a) (var_champion a) (var_skin a) (var_chroma a)
    (cmb_champion_values a) (cmb_skin_values a) (cmb_chroma_values a)
    (preview_text a) (preview_image a) (preview_label_image a) (var_status a).

Definition set_cmb_champion_values (v : list string) (a : App) : App :=
  mkApp (champions a) (current_champion_data a) (var_champion a) (var_skin a)
    (var_chroma a) v (cmb_skin_values a) (cmb_chroma_values a)
    (preview_text a) (preview_image a) (preview_label_image a) (var_status a).

(** [c] goes before the first champion whose name is not smaller than
    its own. *)
Fixpoint insert_by_name (c : Champion) (l : list Champion) : list Champion :=
  match l with
  | [] => [c]
  | x :: l' =>
      if String.ltb (champ_name x) (champ_name c)
      then x :: insert_by_name c l'
      else c :: l
  end.

(** [sorted(l, key=lambda c: c["name"])]: Python's sort is stable and
    compares strings by code point, which on UTF-8 bytes is the
    byte-wise order; the stable sort of a list is unique, and this
    insertion sort computes it. *)
Definition sorted_by_name (l : list Champion) : list Champion :=
  foldr insert_by_name [] l.

(** The order of the sort: by name. *)
Definition name_le (a b : Champion) : Prop :=
  String.leb (champ_name a) (champ_name b) = true.

(** The nested [task] of [_populate_champions_async]; [summary] is what
    [get_champion_summary()] returned or raised. *)
Definition populate_champions_task (summary : Result (list Champion))
    (self : App) : App :=
  match summary with
  | Ok l =>
      let self := set_champions (sorted_by_name l) self in
      let self := set_cmb_champion_values (map champ_name (champions self)) self in
      set_var_status "Choisissez un champion." self
  | Raise e =>
      set_var_status ("Erreur chargement champions : " ++ str_exn e) self
  end.

(** The state [__init__] and [_build_widgets] leave: empty caches, empty
    variables and selectors, an empty preview label. *)
Definition init_app : App :=
  mkApp [] None "" "" "" [] [] [] "" None None "Chargement des champions…".

End Catalog.

(** ** Downloading the selected skin *)

Module Desk.
Import Download.

(** A dialog of [messagebox] or a process started with
    [subprocess.Popen]. *)
Inductive Event :=
  | showwarning (title message : string)
  | showinfo (title message : string)
  | showerror (title message : string)
  | Popen (command : string).

(** The application with the files of the disk and the dialogs and
    processes it has produced, oldest first. *)
Record Desktop := mkDesktop {
  dk_app : App;
  dk_files : gmap string string;
  dk_events : list Event
}.

Definition DQUOTE : string := String "034"%char "".

(** [open_explorer(path)]; [os_name] is [os.name]. *)
Definition open_explorer (os_name : string) (path : string)
    (events : list Event) : list Event :=
  if String.eqb os_name "nt"
  then (events ++ [Popen ("explorer /select," ++ DQUOTE ++ path ++ DQUOTE)])%list
  else events.

(** [open_skin_folder]; [cache] is [LOCAL_SKIN_CACHE]. *)
Definition open_skin_folder (os_name cache : string) (d : Desktop) : Desktop :=
  mkDesktop (dk_app d) (dk_files d) (open_explorer os_name cache (dk_events d)).

(** [download_selected_skin], up to the start of its thread: the result
    carries the [champ] and [skin] the nested task closes over. *)
Definition download_selected_skin (d : Desktop)
  : Desktop * option (string * string) :=
  let champ := var_champion (dk_app d) in
  let skin := var_skin (dk_app d) in
  if String.eqb champ "" || String.eqb skin ""
  then (mkDesktop (dk_app d) (dk_files d)
          (dk_events d ++
             [showwarning "Sélection manquante"
                "Choisissez un champion et un skin."]),
        None)
  else (d, Some (champ, skin)).

(** The nested [task] of [download_selected_skin]; the dialogs and the
    start of the file browser are taken not to raise. *)
Definition download_task (os : OS) (os_name : string) (net : Net)
    (cache champ skin : string) (d : Desktop) : Desktop :=
  let app := set_var_status "Téléchargement…" (dk_app d) in
  match download_zip os net champ (skin ++ ".zip") cache (dk_files d) with
  | (Ok downloaded_file, files) =>
      let app := set_var_status "Téléchargement terminé." app in
      let events : list Event :=
        (dk_events d ++
           [showinfo "Succès" ("Le skin '" ++ skin ++ "' a été téléchargé.")])%list in
      mkDesktop app files (open_explorer os_name downloaded_file events)
  | (Raise e, files) =>
      let app := set_var_status "Erreur téléchargement" app in
      mkDesktop app files (dk_events d ++ [showerror "Erreur" (str_exn e)])
  end.

End Desk.

(** ** The states the user can reach *)

Module Session.
Import SkinChangerApp Catalog Desk.

(** The states of the application when every handler and every
    background task runs to its end before the next one starts, and
    every champion document the API returns has the documented shape.
    The three selectors are read-only: the user picks one of the listed
    values, the variable takes it and the handler runs, to its end or to
    the exception that leaves it.  A background task may complete at any
    time, on any network that serves such documents. *)
Inductive reachable : App -> Prop :=
  | reach_init : reachable init_app
  | reach_populate a summary :
      reachable a -> reachable (populate_champions_task summary a)
  | reach_pick_champion a name :
      reachable a -> In name (cmb_champion_values a) ->
      reachable (on_champion_selected (set_var_champion name a)).1
  | reach_load a net cid :
      reachable a ->
      (forall truthy e, Fetch.get_champion_detail net cid <> Ok (Other truthy e)) ->
      reachable (_load_champ_data net cid a)
  | reach_pick_skin a net name :
      reachable a -> In name (cmb_skin_values a) ->
      reachable (on_skin_selected net (set_var_skin name a)).1
  | reach_pick_chroma a net name :
      reachable a -> In name (cmb_chroma_values a) ->
      reachable (on_chroma_selected net (set_var_chroma name a)).1
  | reach_preview a pil net url :
      reachable a -> reachable (show_image_task pil net url a)
  | reach_download a files events os os_name net cache champ skin :
      reachable a ->
      reachable
        (dk_app (download_task os os_name net cache champ skin
                   (mkDesktop a files events))).

(** The skin selector lists the selectable skins of the loaded
    document, which has the documented shape; with no document, the
    skin and chroma widgets are empty. *)
Definition consistent (a : App) : Prop :=
  match current_champion_data a with
  | Some (Detail d) => cmb_skin_values a = selectable_skins (detail_skins d)
  | Some (Other _ _) => False
  | None =>
      cmb_skin_values a = [] /\ var_skin a = ""
      /\ cmb_chroma_values a = [] /\ var_chroma a = ""
  end.

(** Ahri is loaded, the skin K/DA Ahri is picked, then its chroma
    Ruby. *)
Definition kda_picked : App :=
  (on_skin_selected cdragon
     (set_var_skin "K/DA Ahri" (_load_champ_data cdragon 103 init_app))).1.

Definition ruby_picked : App :=
  (on_chroma_selected cdragon (set_var_chroma "Ruby" kda_picked)).1.

(** A network that lets no exception of urllib3 through. *)
Definition no_leak (net : Net) : Prop :=
  forall url timeout msg, requests_get net url timeout <> Leaked msg.

End Session.

(** ** An interleaving that tears the state *)

Module Torn.

(** Thread 0 runs lines 179 and 180; thread 1 runs from line 179 to its
    end; thread 0 then runs lines 181 to 185. *)
Definition torn_schedule : list nat :=
  [0; 0]%nat ++ replicate 7 1%nat ++ replicate 5 0%nat.

End Torn.

(** * Properties *)

(** ** Asset URLs *)

Section AssetUrl.
Import Helpers.

Lemma startswith_cons (a c : ascii) (p rest : string) :
  startswith (String c rest) (String a p) =
    if ascii_dec a c then startswith rest p else false.
Proof. reflexivity. Qed.

Lemma startswith_nil (path : string) : startswith path "" = true.
Proof. destruct path; reflexivity. Qed.

Lemma startswith_slash (path : string) :
  startswith path "/" = true -> exists rest, path = String "/"%char rest.
Proof.
  destruct path as [|c rest]; [discriminate|].
  rewrite startswith_cons.
  destruct (ascii_dec "/"%char c) as [<-|]; [eauto|discriminate].
Qed.

Lemma drop_leading_slash_other (path : string) :
  startswith path "/" = false -> drop_leading_slash path = path.
Proof.
  destruct path as [|c rest]; [reflexivity|].
  rewrite startswith_cons, startswith_nil.
  destruct (ascii_dec "/"%char c) as [<-|Hne]; [discriminate|intros _].
  unfold drop_leading_slash.
  destruct c as [[] [] [] [] [] [] [] []]; try reflexivity.
  exfalso. apply Hne. reflexivity.
Qed.

Lemma normalize_absolute (path : string) :
  is_absolute_url path = true -> normalize_cdragon_path (Some path) = path.
Proof.
  unfold is_absolute_url, normalize_cdragon_path. intros H.
  destruct path; [reflexivity|]. rewrite H. reflexivity.
Qed.

(** C4 as stated fails: a path that starts with two slashes keeps both,
    so the base and the rest of the path are separated by two slashes,
    not by exactly one. *)
Lemma normalize_cdragon_path_double_slash :
  normalize_cdragon_path (Some "//assets/foo.png")
    = "https://raw.communitydragon.org/latest//assets/foo.png"
  /\ normalize_cdragon_path (Some "//assets/foo.png")
       <> CDRAGON_BASE ++ "/" ++ "assets/foo.png"
  /\ ~ (exists rest,
          normalize_cdragon_path (Some "//assets/foo.png")
            = CDRAGON_BASE ++ "/" ++ rest
          /\ startswith rest "/" = false).
Proof.
  split; [reflexivity|]. split; [discriminate|].
  intros (rest & Heq & Hrest).
  change (normalize_cdragon_path (Some "//assets/foo.png"))
    with (CDRAGON_BASE ++ "/" ++ "/assets/foo.png") in Heq.
  apply (inj (String.app CDRAGON_BASE)) in Heq.
  apply (inj (String.app "/")) in Heq. subst rest. discriminate.
Qed.

(** C4 (amended). [normalize_cdragon_path] maps an absent or empty path
    to the empty string, leaves an absolute URL (one that starts with
    [http://] or [https://]) as it is, and maps any other path to the
    CDN base followed by the path, adding one slash between them exactly
    when the path does not start with one: the result is the base, one
    slash, and the path without its first leading slash, so a path that
    starts with several slashes keeps the others; [assets/foo.png] and
    [/assets/foo.png] give the same URL. *)
Theorem normalize_cdragon_path_spec :
  normalize_cdragon_path None = ""
  /\ (forall path : string,
        normalize_cdragon_path (Some path) =
          if String.eqb path "" then ""
          else if is_absolute_url path then path
          else CDRAGON_BASE ++ "/" ++ drop_leading_slash path)
  /\ (forall path : string,
        normalize_cdragon_path (Some path) =
          if String.eqb path "" then ""
          else if is_absolute_url path then path
          else if startswith path "/" then CDRAGON_BASE ++ path
          else CDRAGON_BASE ++ "/" ++ path)
  /\ normalize_cdragon_path (Some "assets/foo.png")
       = normalize_cdragon_path (Some "/assets/foo.png")
  /\ normalize_cdragon_path (Some "/assets/foo.png")
       = "https://raw.communitydragon.org/latest/assets/foo.png".
Proof.
  assert (Hmain : forall path : string,
            normalize_cdragon_path (Some path) =
              if String.eqb path "" then ""
              else if is_absolute_url path then path
              else if startswith path "/" then CDRAGON_BASE ++ path
              else CDRAGON_BASE ++ "/" ++ path).
  { intros path. destruct (String.eqb_spec path "") as [->|Hne]; [reflexivity|].
    unfold normalize_cdragon_path.
    destruct path as [|c rest]; [congruence|].
    fold (is_absolute_url (String c rest)).
    destruct (is_absolute_url (String c rest)); [reflexivity|].
    destruct (startswith (String c rest) "/"); reflexivity. }
  split; [reflexivity|]. split; [|split; [exact Hmain|split; reflexivity]].
  intros path. rewrite Hmain.
  destruct (String.eqb path ""); [reflexivity|].
  destruct (is_absolute_url path); [reflexivity|].
  destruct (startswith path "/") eqn:Hs.
  - apply startswith_slash in Hs as [rest' ->]. reflexivity.
  - rewrite (drop_leading_slash_other _ Hs). reflexivity.
Qed.

(** C9. On an absolute URL, applying [normalize_cdragon_path] twice
    gives what applying it once gives. *)
Theorem normalize_cdragon_path_idempotent (x : string) :
  is_absolute_url x = true ->
  normalize_cdragon_path (Some (normalize_cdragon_path (Some x)))
    = normalize_cdragon_path (Some x).
Proof.
  intros H. rewrite (normalize_absolute x H). apply normalize_absolute, H.
Qed.

Lemma normalize_cdragon_path_idempotent_witness :
  is_absolute_url "https://cdn.example/a.png" = true
  /\ normalize_cdragon_path
       (Some (normalize_cdragon_path (Some "https://cdn.example/a.png")))
     = normalize_cdragon_path (Some "https://cdn.example/a.png").
Proof.
  split; [reflexivity|].
  apply (normalize_cdragon_path_idempotent "https://cdn.example/a.png").
  reflexivity.
Defined.

End AssetUrl.

(** ** The existence check *)

Section ExistenceCheck.
Import Fetch.

(** C5 as stated fails: for the URL [https://a..b/x.png] the GET raises
    urllib3's [LocationParseError], which is not a [RequestException];
    the [except] clause of line 42 does not catch it and
    [check_url_exists] raises. *)
Lemma check_url_exists_leaks :
  check_url_exists bad_host "https://a..b/x.png"
    = Raise (mkExn LocationParseError
               "Failed to parse: 'a..b', label empty or too long")
  /\ forall b : bool, check_url_exists bad_host "https://a..b/x.png" <> Ok b.
Proof. split; [reflexivity|discriminate]. Qed.

(** C5 (amended). For every URL, [check_url_exists] returns [true]
    exactly when the GET came back with status 200, and returns [false]
    exactly when the GET came back with another status or raised a
    [RequestException] (network error, timeout); it raises exactly when
    [requests.get] lets through an exception that is not a
    [RequestException], and then it raises that exception. *)
Theorem check_url_exists_outcomes (net : Net) (url : string) :
  (check_url_exists net url = Ok true <->
     exists r, requests_get net url 30 = Returned r /\ status_code r = 200)
  /\ (check_url_exists net url = Ok false <->
        (exists msg, requests_get net url 30 = Raised msg)
        \/ (exists r, requests_get net url 30 = Returned r
                      /\ status_code r <> 200))
  /\ (forall e, check_url_exists net url = Raise e <->
        exc_class e = LocationParseError
        /\ requests_get net url 30 = Leaked (exc_msg e)).
Proof.
  unfold check_url_exists.
  destruct (requests_get net url 30) as [r|msg|msg].
  - destruct (Z.eqb_spec (status_code r) 200) as [He|Hne];
      (split; [|split]).
    + split; [intros _; exists r; auto|reflexivity].
    + split; [discriminate|].
      intros [[msg Hm]|[r' [Hr Hs]]]; [discriminate|].
      injection Hr as <-. contradiction.
    + intros e. split; [discriminate|]. intros [_ H]. discriminate.
    + split; [discriminate|].
      intros [r' [Hr Hs]]. injection Hr as <-. contradiction.
    + split; [intros _; right; exists r; auto|reflexivity].
    + intros e. split; [discriminate|]. intros [_ H]. discriminate.
  - split; [|split].
    + split; [discriminate|]. intros [r [Hr _]]. discriminate.
    + split; [intros _; left; eauto|reflexivity].
    + intros e. split; [discriminate|]. intros [_ H]. discriminate.
  - split; [|split].
    + split; [discriminate|]. intros [r [Hr _]]. discriminate.
    + split; [discriminate|].
      intros [[m Hm]|[r [Hr _]]]; discriminate.
    + intros e. split.
      * intros [= <-]. auto.
      * intros [Hc [= Hm]]. destruct e as [c m]. cbn in *. subst. reflexivity.
Qed.

End ExistenceCheck.

(** ** The preview pane *)

Section Preview.
Import Helpers Fetch Globals SkinChangerApp.

Lemma show_image_async_no_asset (net : Net) (path : option string) (self : App) :
  normalize_cdragon_path path = ""
  \/ check_url_exists net (normalize_cdragon_path path) = Ok false ->
  _show_image_async net path self = (set_preview_text NO_IMAGE self, Ok []).
Proof.
  unfold _show_image_async. intros [H|H]; rewrite H.
  - reflexivity.
  - destruct (String.eqb _ _); reflexivity.
Qed.

(** C2. When the asset path is absent or empty, or when the existence
    check of its URL answers no, [_show_image_async] sets the text of
    the preview label to the placeholder, leaves the image of the label
    (and the reference kept in [preview_label.image]) as it was, and
    starts no thread. *)
Theorem show_image_async_placeholder
    (net : Net) (path : option string) (self : App) :
  path = None \/ path = Some ""
  \/ check_url_exists net (normalize_cdragon_path path) = Ok false ->
  let '(self', started) := _show_image_async net path self in
  preview_text self' = NO_IMAGE
  /\ preview_image self' = preview_image self
  /\ preview_label_image self' = preview_label_image self
  /\ started = Ok [].
Proof.
  intros H. rewrite show_image_async_no_asset; [repeat split|].
  destruct H as [->|[->|H]]; auto.
Qed.

Lemma show_image_async_placeholder_witness :
  let '(self', started) :=
    _show_image_async (always not_found)
      (Some "/assets/missing.png")
      (set_preview_image (Some sample_image) blank_app) in
  preview_text self' = NO_IMAGE
  /\ preview_image self' = Some sample_image
  /\ preview_label_image self' = None
  /\ started = Ok [].
Proof.
  apply (show_image_async_placeholder (always not_found)
           (Some "/assets/missing.png")
           (set_preview_image (Some sample_image) blank_app)).
  right. right. reflexivity.
Defined.

Lemma load_global_Image : load_global module_globals "Image"
  = Raise (mkExn NameError "name 'Image' is not defined").
Proof. reflexivity. Qed.

(** The [try] of the preview task never gives a picture: either the
    request fails, or the lookup of [Image] does. *)
Lemma show_image_try_raises (pil : Imaging) (net : Net) (url : string) :
  exists e, show_image_try module_globals pil net url = Raise e.
Proof.
  unfold show_image_try.
  destruct (Requests.get net url 30) as [r|e]; [|eauto].
  cbn. destruct (Requests.raise_for_status r) as [[]|e]; [|eauto].
  cbn. eauto.
Qed.

(** C3 (as the code runs). [exec2.py] never imports [Image] nor
    [ImageTk].  When the GET of the preview task returns a response
    whose status is not an error, the task reaches [Image.open], the
    lookup of [Image] raises [NameError], and the [except] clause shows
    that error as overlay text: the body is not decoded, nothing is
    resized to 512 by 288 and the image of the label stays what it
    was. *)
Theorem show_image_task_name_error
    (pil : Imaging) (net : Net) (url : string) (r : Response) (self : App) :
  requests_get net url 30 = Returned r ->
  Requests.raise_for_status r = Ok tt ->
  let self' := show_image_task pil net url self in
  preview_text self' = "[Impossible d'afficher] name 'Image' is not defined"
  /\ preview_image self' = preview_image self
  /\ preview_label_image self' = preview_label_image self.
Proof.
  intros Hget Hst. cbv zeta.
  unfold show_image_task, show_image_task_in, show_image_try, Requests.get.
  rewrite Hget. cbn. rewrite Hst. cbn. repeat split.
Qed.

Lemma show_image_task_name_error_witness :
  let self' :=
    show_image_task sample_pil (always (ok_response "PNG"))
      "https://raw.communitydragon.org/latest/a.png" blank_app in
  preview_text self' = "[Impossible d'afficher] name 'Image' is not defined"
  /\ preview_image self' = None
  /\ preview_label_image self' = None.
Proof.
  apply (show_image_task_name_error sample_pil
           (always (ok_response "PNG"))
           "https://raw.communitydragon.org/latest/a.png"
           (ok_response "PNG") blank_app); reflexivity.
Defined.

(** Whatever the network and the body, the preview task ends in its
    [except] clause: overlay text, image kept. *)
Lemma show_image_task_keeps_image
    (pil : Imaging) (net : Net) (url : string) (self : App) :
  exists e,
    show_image_task pil net url self
      = set_preview_text ("[Impossible d'afficher] " ++ str_exn e) self.
Proof.
  destruct (show_image_try_raises pil net url) as [e He]. exists e.
  unfold show_image_task, show_image_task_in. rewrite He. reflexivity.
Qed.

(** With [Image] and [ImageTk] bound (the import the module lacks), the
    same task shows the decoded body at 512 by 288 and clears the
    text. *)
Lemma show_image_task_with_import
    (pil : Imaging) (net : Net) (url : string) (r : Response)
    (img photo : Image) (self : App) :
  requests_get net url 30 = Returned r ->
  Requests.raise_for_status r = Ok tt ->
  Image_open pil (content r) = Ok img ->
  PhotoImage pil (Image_resize pil img 512 288) = Ok photo ->
  let self' :=
    show_image_task_in ("Image" :: "ImageTk" :: module_globals) pil net url self in
  preview_text self' = ""
  /\ preview_image self' = Some photo
  /\ img_width (Image_resize pil img 512 288) = 512
  /\ img_height (Image_resize pil img 512 288) = 288.
Proof.
  intros Hget Hst Hopen Hphoto. cbv zeta.
  unfold show_image_task_in, show_image_try, Requests.get.
  rewrite Hget. cbn. rewrite Hst. cbn. rewrite Hopen. cbn.
  rewrite Hphoto. cbn. repeat split.
Qed.

End Preview.

(** ** The archive download *)

Section Archive.
Import Download.

Lemma download_zip_ok (os : OS) (net : Net) (champion zip_name target_dir : string)
    (files : gmap string string) (r : Response) :
  requests_get net (GITHUB_ZIP_BASE ++ champion ++ "/" ++ zip_name) 60
    = Returned r ->
  Requests.raise_for_status r = Ok tt ->
  open_wb os (joinpath os target_dir zip_name) = None ->
  download_zip os net champion zip_name target_dir files
    = (Ok (joinpath os target_dir zip_name),
       <[joinpath os target_dir zip_name := content r]> files).
Proof.
  intros Hget Hst Hopen. unfold download_zip, Requests.get.
  rewrite Hget, Hst, Hopen. reflexivity.
Qed.

(** C6. Two calls of [download_zip] with the same champion, file name
    and directory, each answered by a response whose status is not an
    error and each able to open the file: both return the same path, the
    join of the directory and the file name; after the second call the
    file at that path holds the body of the second response, whatever
    the first call wrote, and every other file is as the first call left
    it. *)
Theorem download_zip_twice (os : OS) (net1 net2 : Net)
    (champion zip_name target_dir : string) (files : gmap string string)
    (r1 r2 : Response) :
  let url := GITHUB_ZIP_BASE ++ champion ++ "/" ++ zip_name in
  let target := joinpath os target_dir zip_name in
  requests_get net1 url 60 = Returned r1 ->
  requests_get net2 url 60 = Returned r2 ->
  Requests.raise_for_status r1 = Ok tt ->
  Requests.raise_for_status r2 = Ok tt ->
  open_wb os target = None ->
  exists files1 files2,
    download_zip os net1 champion zip_name target_dir files = (Ok target, files1)
    /\ download_zip os net2 champion zip_name target_dir files1 = (Ok target, files2)
    /\ files1 !! target = Some (content r1)
    /\ files2 !! target = Some (content r2)
    /\ (forall other, other <> target -> files2 !! other = files !! other).
Proof.
  intros url target H1 H2 Hs1 Hs2 Hopen.
  exists (<[target := content r1]> files).
  exists (<[target := content r2]> (<[target := content r1]> files)).
  split; [apply download_zip_ok; assumption|].
  split; [apply download_zip_ok; assumption|].
  split; [apply lookup_insert_eq|].
  split; [apply lookup_insert_eq|].
  intros other Hne. rewrite !lookup_insert_ne by congruence. reflexivity.
Qed.

Lemma download_zip_twice_witness :
  exists files1 files2,
    download_zip sample_os (always (ok_response "first"))
      "Ahri" "Dynasty Ahri.zip" "C:/skin-cache" ∅
      = (Ok "C:/skin-cache/Dynasty Ahri.zip", files1)
    /\ download_zip sample_os (always (ok_response "second"))
         "Ahri" "Dynasty Ahri.zip" "C:/skin-cache" files1
       = (Ok "C:/skin-cache/Dynasty Ahri.zip", files2)
    /\ files1 !! "C:/skin-cache/Dynasty Ahri.zip" = Some "first"
    /\ files2 !! "C:/skin-cache/Dynasty Ahri.zip" = Some "second"
    /\ (forall other, other <> "C:/skin-cache/Dynasty Ahri.zip" ->
          files2 !! other = (∅ : gmap string string) !! other).
Proof.
  apply (download_zip_twice sample_os
           (always (ok_response "first"))
           (always (ok_response "second"))
           "Ahri" "Dynasty Ahri.zip" "C:/skin-cache" ∅
           (ok_response "first") (ok_response "second"));
    reflexivity.
Defined.

End Archive.

(** ** Selecting a skin *)

Section SkinSelection.
Import Helpers Fetch SkinChangerApp.

Lemma show_image_async_frame (net : Net) (path : option string) (self : App) :
  let '(self', started) := _show_image_async net path self in
  cmb_chroma_values self' = cmb_chroma_values self
  /\ var_chroma self' = var_chroma self
  /\ (started = Ok []
      \/ started = Ok [ShowImageTask (normalize_cdragon_path path)]
      \/ exists e, started = Raise e
                   /\ check_url_exists net (normalize_cdragon_path path) = Raise e).
Proof.
  unfold _show_image_async.
  destruct (String.eqb _ _); [cbn; auto|].
  destruct (check_url_exists net _) as [[]|e]; cbn; [auto|auto|].
  split; [reflexivity|]. split; [reflexivity|].
  right. right. exists e. auto.
Qed.

(** C8. When the skin that [on_skin_selected] finds has no chroma (the
    key is absent or its list is empty), the handler sets the values of
    the chroma selector to the placeholder alone, sets the chroma
    variable to the placeholder, and then does what [_show_image_async]
    does on the splash path of the skin and nothing more: the only
    thread it can start is the preview of that path, and it starts one
    or none unless the existence check of that path raises. *)
Theorem on_skin_selected_no_chroma
    (net : Net) (self : App) (data : ChampionDetail) (skin : Skin) :
  var_skin self <> "" ->
  current_champion_data self = Some (Detail data) ->
  find_skin (detail_skins data) (var_skin self) = Some skin ->
  default [] (skin_chromas skin) = [] ->
  let '(self', started) := on_skin_selected net self in
  cmb_chroma_values self' = [PLACEHOLDER]
  /\ var_chroma self' = PLACEHOLDER
  /\ on_skin_selected net self
       = _show_image_async net (skin_splashPath skin)
           (set_var_chroma PLACEHOLDER
              (set_cmb_chroma_values [PLACEHOLDER] self))
  /\ (started = Ok []
      \/ started
         = Ok [ShowImageTask (normalize_cdragon_path (skin_splashPath skin))]
      \/ exists e,
           started = Raise e
           /\ check_url_exists net
                (normalize_cdragon_path (skin_splashPath skin)) = Raise e).
Proof.
  intros Hname Hdata Hfind Hchromas.
  assert (Heq : on_skin_selected net self
                = _show_image_async net (skin_splashPath skin)
                    (set_var_chroma PLACEHOLDER
                       (set_cmb_chroma_values [PLACEHOLDER] self))).
  { unfold on_skin_selected.
    destruct (String.eqb_spec (var_skin self) "") as [He|_]; [contradiction|].
    rewrite Hdata, Hfind, Hchromas. reflexivity. }
  rewrite Heq.
  pose proof (show_image_async_frame net (skin_splashPath skin)
                (set_var_chroma PLACEHOLDER
                   (set_cmb_chroma_values [PLACEHOLDER] self))) as Hframe.
  destruct (_show_image_async _ _ _) as [self' started].
  destruct Hframe as (Hv & Hc & Hs). auto.
Qed.

Lemma on_skin_selected_no_chroma_witness :
  let '(self', started) :=
    on_skin_selected cdragon
      (set_var_skin "Dynasty Ahri"
         (set_current_champion_data (Some (Detail ahri)) loaded_app)) in
  cmb_chroma_values self' = [PLACEHOLDER]
  /\ var_chroma self' = PLACEHOLDER
  /\ on_skin_selected cdragon
       (set_var_skin "Dynasty Ahri"
          (set_current_champion_data (Some (Detail ahri)) loaded_app))
       = _show_image_async cdragon (Some "/assets/ahri_1.jpg")
           (set_var_chroma PLACEHOLDER
              (set_cmb_chroma_values [PLACEHOLDER]
                 (set_var_skin "Dynasty Ahri"
                    (set_current_champion_data (Some (Detail ahri)) loaded_app))))
  /\ (started = Ok []
      \/ started
         = Ok [ShowImageTask (normalize_cdragon_path (Some "/assets/ahri_1.jpg"))]
      \/ exists e,
           started = Raise e
           /\ check_url_exists cdragon
                (normalize_cdragon_path (Some "/assets/ahri_1.jpg")) = Raise e).
Proof.
  apply (on_skin_selected_no_chroma cdragon
           (set_var_skin "Dynasty Ahri"
              (set_current_champion_data (Some (Detail ahri)) loaded_app))
           ahri
           (mkSkin "Dynasty Ahri" (Some false) (Some "/assets/ahri_1.jpg")
              (Some []))).
  - discriminate.
  - reflexivity.
  - reflexivity.
  - reflexivity.
Defined.

End SkinSelection.

(** ** Selecting a champion *)

Section ChampionSelection.
Import Fetch SkinChangerApp.

Lemma find_champion_In (cs : list Champion) (c : Champion) :
  In c cs ->
  exists c', find_champion cs (champ_name c) = Some c'
             /\ champ_name c' = champ_name c.
Proof.
  unfold find_champion. induction cs as [|x cs IH]; intros Hin; [destruct Hin|].
  cbn. destruct (String.eqb_spec (champ_name x) (champ_name c)) as [He|Hne].
  - eauto.
  - destruct Hin as [->|Hin]; [congruence|]. auto.
Qed.

Lemma on_champion_selected_found (self : App) (name : string) (champ : Champion) :
  name <> "" ->
  find_champion (champions self) name = Some champ ->
  on_champion_selected (set_var_champion name self)
    = (set_var_status "Chargement des skins…" (set_var_champion name self),
       [LoadChampData (champ_id champ)]).
Proof.
  intros Hne Hfind. unfold on_champion_selected.
  cbn [var_champion champions set_var_champion].
  destruct (String.eqb_spec name "") as [He|_]; [contradiction|].
  rewrite Hfind. reflexivity.
Qed.

(** The code's filter keeps a skin exactly when its [isBase] is not
    [true]. *)
Lemma selectable_skins_spec (skins : list Skin) :
  selectable_skins skins
    = map skin_name (filter (fun s => skin_isBase s <> Some true) skins).
Proof.
  unfold selectable_skins. f_equal.
  induction skins as [|s skins IH]; [reflexivity|].
  rewrite filter_cons. cbn [List.filter]. rewrite IH.
  destruct (skin_isBase s) as [[]|]; unfold default; cbn [from_option id negb];
    destruct (decide _) as [H|H];
    first [reflexivity | exfalso; apply H; discriminate | congruence].
Qed.

Lemma load_champ_data_ok (net : Net) (cid : Z) (d : ChampionDetail) (self : App) :
  get_champion_detail net cid = Ok (Detail d) ->
  _load_champ_data net cid self
    = set_var_status "Sélectionnez un skin."
        (set_var_chroma ""
           (set_cmb_chroma_values []
              (set_var_skin ""
                 (set_cmb_skin_values (selectable_skins (detail_skins d))
                    (set_current_champion_data (Some (Detail d)) self))))).
Proof.
  intros Hget. unfold _load_champ_data, load_store. rewrite Hget. reflexivity.
Qed.

Lemma load_champ_data_raise (net : Net) (cid : Z) (e : Exn) (self : App) :
  get_champion_detail net cid = Raise e ->
  _load_champ_data net cid self = load_except e self.
Proof.
  intros Hget. unfold _load_champ_data, load_store. rewrite Hget. reflexivity.
Qed.

(** C1. For every champion of the loaded catalog (with a name that is
    not empty: the handler starts nothing for an empty name), selecting
    its name starts exactly one detail fetch, and when that fetch
    returns a document the skin selector holds the names of the skins of
    the document whose [isBase] is not [true], in the order of the
    document. *)
Theorem select_champion_skin_list
    (pil : Imaging) (net : Net) (self : App) (c : Champion) :
  In c (champions self) ->
  champ_name c <> "" ->
  exists cid self1,
    on_champion_selected (set_var_champion (champ_name c) self)
      = (self1, [LoadChampData cid])
    /\ forall d,
         get_champion_detail net cid = Ok (Detail d) ->
         cmb_skin_values (run_task pil net (LoadChampData cid) self1)
           = map skin_name
               (filter (fun s => skin_isBase s <> Some true) (detail_skins d)).
Proof.
  intros Hin Hne.
  destruct (find_champion_In _ _ Hin) as (c' & Hfind & _).
  eexists _, _. split.
  - apply on_champion_selected_found; eassumption.
  - intros d Hd. cbn [run_task]. rewrite (load_champ_data_ok _ _ _ _ Hd).
    cbn. apply selectable_skins_spec.
Qed.

Lemma select_champion_skin_list_witness :
  exists cid self1,
    on_champion_selected (set_var_champion "Ahri" loaded_app)
      = (self1, [LoadChampData cid])
    /\ forall d,
         get_champion_detail cdragon cid = Ok (Detail d) ->
         cmb_skin_values (run_task sample_pil cdragon (LoadChampData cid) self1)
           = map skin_name
               (filter (fun s => skin_isBase s <> Some true) (detail_skins d)).
Proof.
  apply (select_champion_skin_list sample_pil cdragon loaded_app
           (mkChampion 103 "Ahri")).
  - left. reflexivity.
  - discriminate.
Defined.

End ChampionSelection.

(** ** A detail fetch that fails *)

Section FetchFailure.
Import Fetch SkinChangerApp.

(** C7 as stated fails: with Ahri's skins listed, picking Zed while the
    network is down sets the error status and leaves Ahri's three skins
    in the selector. *)
Lemma fetch_failure_keeps_old_list :
  var_champion zed_failed = "Zed"
  /\ var_status zed_failed = "Erreur chargement skins : timed out"
  /\ cmb_skin_values zed_failed = ["Dynasty Ahri"; "Midnight Ahri"; "K/DA Ahri"]
  /\ cmb_skin_values zed_failed <> [].
Proof. vm_compute. repeat split. discriminate. Qed.

(** C7 (amended). When the detail fetch started by a champion selection
    raises, [_load_champ_data] sets the status line to the error message
    and leaves the skin selector as it was before the selection; it is
    empty afterwards exactly when it was empty before. *)
Theorem fetch_failure_status_and_list
    (pil : Imaging) (net : Net) (self : App) (name : string)
    (champ : Champion) (e : Exn) :
  name <> "" ->
  find_champion (champions self) name = Some champ ->
  get_champion_detail net (champ_id champ) = Raise e ->
  let self' := pick_and_load pil net name self in
  var_status self' = "Erreur chargement skins : " ++ str_exn e
  /\ cmb_skin_values self' = cmb_skin_values self
  /\ (cmb_skin_values self' = [] <-> cmb_skin_values self = []).
Proof.
  intros Hne Hfind Hget. cbv zeta. unfold pick_and_load.
  rewrite (on_champion_selected_found _ _ _ Hne Hfind).
  cbn [foldl run_task]. rewrite (load_champ_data_raise _ _ _ _ Hget).
  cbn. repeat split; auto.
Qed.

Lemma fetch_failure_status_and_list_witness :
  let self' := pick_and_load sample_pil (down "timed out") "Zed" ahri_listed in
  var_status self' = "Erreur chargement skins : " ++ "timed out"
  /\ cmb_skin_values self' = cmb_skin_values ahri_listed
  /\ (cmb_skin_values self' = [] <-> cmb_skin_values ahri_listed = []).
Proof.
  apply (fetch_failure_status_and_list sample_pil (down "timed out")
           ahri_listed "Zed" (mkChampion 238 "Zed")
           (mkExn RequestException "timed out")).
  - discriminate.
  - reflexivity.
  - reflexivity.
Defined.

End FetchFailure.

(** ** Two selections in flight *)

Section StaleResults.
Import Fetch SkinChangerApp Threads Race.

Variable net : Net.
Variable cids : list Z.
Hypothesis all_served :
  forall cid, In cid cids -> exists d, get_champion_detail net cid = Ok (Detail d).

Lemma thread_inv_stable (a a' : App) (u : LoadThread) :
  (good_data net cids a -> good_data net cids a') ->
  (good_list net cids (cmb_skin_values a) ->
   good_list net cids (cmb_skin_values a')) ->
  thread_inv net cids a u -> thread_inv net cids a' u.
Proof.
  intros Hd Hl [Hu Hline]. split; [exact Hu|].
  destruct (lt_line u); tauto.
Qed.

Lemma step_inv (a : App) (t : LoadThread) :
  thread_inv net cids a t ->
  thread_inv net cids (step net t a).2 (step net t a).1
  /\ forall u, thread_inv net cids a u -> thread_inv net cids (step net t a).2 u.
Proof.
  intros [Hcid Hline]. unfold step.
  destruct (lt_line t) eqn:El.
  - (* line 179: the store *)
    destruct (all_served _ Hcid) as [d Hd].
    unfold load_store. rewrite Hd. cbn.
    assert (Hgood : good_data net cids (set_current_champion_data (Some (Detail d)) a)).
    { exists d. split; [reflexivity|]. exists (lt_cid t). auto. }
    split; [split; [exact Hcid|exact Hgood]|].
    intros u. apply thread_inv_stable; auto.
  - (* line 180: the read *)
    destruct Hline as (d & Hcur & Hf). unfold load_skins. rewrite Hcur. cbn.
    split; [|auto].
    split; [exact Hcid|]. split; exists d; auto.
  - (* line 181: the write of the selector *)
    destruct Hline as (Hdata & Hskins). cbn.
    split; [split; [exact Hcid|]|].
    + split; [exact Hdata|]. split; exact Hskins.
    + intros u. apply thread_inv_stable; [auto|intros _; exact Hskins].
  - cbn. split; [split; [exact Hcid|exact Hline]|].
    intros u. apply thread_inv_stable; auto.
  - cbn. split; [split; [exact Hcid|exact Hline]|].
    intros u. apply thread_inv_stable; auto.
  - cbn. split; [split; [exact Hcid|exact Hline]|].
    intros u. apply thread_inv_stable; auto.
  - cbn. split; [split; [exact Hcid|exact Hline]|].
    intros u. apply thread_inv_stable; auto.
  - destruct Hline.
  - cbn. split; [|auto]. split; [exact Hcid|]. rewrite El. exact Hline.
Qed.

Lemma step_thread_inv (i : nat) (s : Sys) :
  sys_inv net cids s -> sys_inv net cids (step_thread net i s).
Proof.
  unfold sys_inv, step_thread. intros Hall.
  destruct (sys_threads s !! i) as [t|] eqn:Hi; [|exact Hall].
  assert (Ht : thread_inv net cids (sys_app s) t).
  { eapply Forall_lookup_1; eassumption. }
  destruct (step_inv _ _ Ht) as [Hnew Hothers].
  destruct (step net t (sys_app s)) as [t' a']. cbn in *.
  apply Forall_insert; [|exact Hnew].
  eapply Forall_impl; [exact Hall|exact Hothers].
Qed.

Lemma run_inv (sched : list nat) (s : Sys) :
  sys_inv net cids s -> sys_inv net cids (run net sched s).
Proof.
  unfold run. revert s.
  induction sched as [|i sched IH]; intros s Hs; [exact Hs|].
  cbn. apply IH, step_thread_inv, Hs.
Qed.

Lemma step_thread_length (i : nat) (s : Sys) :
  List.length (sys_threads (step_thread net i s)) = List.length (sys_threads s).
Proof.
  unfold step_thread. destruct (sys_threads s !! i) as [t|]; [|reflexivity].
  destruct (step net t (sys_app s)) as [t' a']. cbn. apply length_insert.
Qed.

Lemma run_length (sched : list nat) (s : Sys) :
  List.length (sys_threads (run net sched s)) = List.length (sys_threads s).
Proof.
  unfold run. revert s.
  induction sched as [|i sched IH]; intros s; [reflexivity|].
  cbn. rewrite IH. apply step_thread_length.
Qed.

(** When every thread has ended, the skin selector lists a fetched
    document. *)
Lemma finished_good_list (s : Sys) :
  sys_inv net cids s ->
  sys_threads s <> [] ->
  finished s = true ->
  good_list net cids (cmb_skin_values (sys_app s)).
Proof.
  unfold sys_inv, finished. intros Hinv Hne Hfin.
  destruct (sys_threads s) as [|t ts]; [congruence|].
  apply Forall_cons in Hinv as [[_ Ht] _].
  cbn in Hfin. apply andb_true_iff in Hfin as [Hend _].
  unfold ended in Hend. destruct (lt_line t); try discriminate.
  tauto.
Qed.

End StaleResults.

Section StaleScenario.
Import Fetch SkinChangerApp Threads Race.

(** A thread that runs its seven statements in a row does what
    [_load_champ_data] does, and has ended. *)
Lemma steps_load_champ_data (net : Net) (cid : Z) (sk : list string) (self : App) :
  (steps net 7 (mkThread cid L179 sk) self).2 = _load_champ_data net cid self
  /\ ended (steps net 7 (mkThread cid L179 sk) self).1 = true.
Proof.
  unfold _load_champ_data. cbn. unfold goto. cbn.
  destruct (load_store net cid self) as [self1|e]; cbn; [|auto].
  destruct (load_skins self1) as [skins|e]; cbn; auto.
Qed.

Lemma step_thread_at (net : Net) (i : nat) (s : Sys) (t : LoadThread) :
  sys_threads s !! i = Some t ->
  step_thread net i s
    = mkSys (step net t (sys_app s)).2
        (<[i := (step net t (sys_app s)).1]> (sys_threads s)).
Proof.
  intros Hi. unfold step_thread. rewrite Hi.
  destruct (step net t (sys_app s)). reflexivity.
Qed.

Lemma run_cons (net : Net) (i : nat) (l : list nat) (s : Sys) :
  run net (i :: l) s = run net l (step_thread net i s).
Proof. reflexivity. Qed.

Lemma run_replicate (net : Net) (i k : nat) (s : Sys) (t : LoadThread) :
  sys_threads s !! i = Some t ->
  run net (replicate k i) s
    = mkSys (steps net k t (sys_app s)).2
        (<[i := (steps net k t (sys_app s)).1]> (sys_threads s)).
Proof.
  revert s t. induction k as [|k IH]; intros s t Hi.
  - cbn. rewrite list_insert_id by exact Hi. destruct s; reflexivity.
  - cbn [replicate steps]. rewrite run_cons, (step_thread_at _ _ _ _ Hi).
    destruct (step net t (sys_app s)) as [t1 a1] eqn:Hstep. cbn [fst snd].
    rewrite (IH _ t1).
    + cbn [sys_app sys_threads]. rewrite list_insert_insert_eq. reflexivity.
    + cbn [sys_threads]. apply list_lookup_insert_eq.
      eapply lookup_lt_Some, Hi.
Qed.

Lemma run_app (net : Net) (l1 l2 : list nat) (s : Sys) :
  run net (l1 ++ l2) s = run net l2 (run net l1 s).
Proof. unfold run. apply foldl_app. Qed.

Lemma select_champion_found (name : string) (champ : Champion) (s : Sys) :
  name <> "" ->
  find_champion (champions (sys_app s)) name = Some champ ->
  select_champion name s
    = mkSys (set_var_status "Chargement des skins…"
               (set_var_champion name (sys_app s)))
        (sys_threads s ++ [mkThread (champ_id champ) L179 []]).
Proof.
  intros Hne Hfind. unfold select_champion.
  rewrite (on_champion_selected_found _ _ _ Hne Hfind). reflexivity.
Qed.

(** Two threads from line 179, one after the other: the selector ends
    with the list of the thread that ran last. *)
Lemma run_one_after_the_other (net : Net) (a : App) (i j : nat)
    (ts : list LoadThread) (ci cj : Z) (dj : ChampionDetail) :
  i <> j ->
  ts !! i = Some (mkThread ci L179 []) ->
  ts !! j = Some (mkThread cj L179 []) ->
  List.length ts = 2%nat ->
  get_champion_detail net cj = Ok (Detail dj) ->
  let s := run net (replicate 7 i ++ replicate 7 j) (mkSys a ts) in
  finished s = true
  /\ cmb_skin_values (sys_app s) = selectable_skins (detail_skins dj).
Proof.
  intros Hij Hi Hj Hlen Hdj. cbv zeta.
  rewrite run_app.
  rewrite (run_replicate net i 7 (mkSys a ts) _ Hi). cbn [sys_app sys_threads].
  destruct (steps_load_champ_data net ci [] a) as [Hai Hei].
  destruct (steps net 7 (mkThread ci L179 []) a) as [ti ai]. cbn [fst snd] in *.
  rewrite (run_replicate net j 7 (mkSys ai (<[i := ti]> ts))
             (mkThread cj L179 [])); cycle 1.
  { cbn [sys_threads]. rewrite list_lookup_insert_ne by exact Hij. exact Hj. }
  cbn [sys_app sys_threads].
  destruct (steps_load_champ_data net cj [] ai) as [Haj Hej].
  destruct (steps net 7 (mkThread cj L179 []) ai) as [tj aj]. cbn [fst snd] in *.
  split.
  - unfold finished. cbn [sys_threads].
    destruct ts as [|t0 [|t1 [|t2 ts]]]; try discriminate Hlen.
    destruct i as [|[|i]], j as [|[|j]]; try discriminate; try congruence;
      cbn; rewrite Hei, Hej; reflexivity.
  - cbn [sys_app]. rewrite Haj, (load_champ_data_ok _ _ _ _ Hdj). reflexivity.
Qed.

(** C10 (amended). The user picks champion A and then champion B before
    A's fetch resolves, and both fetches return a document.  The code
    carries no token: each thread of [_load_champ_data] writes the skin
    selector with what it read.  If A's thread runs to its end before
    B's, the selector ends with B's skins; if B's thread runs to its end
    first and A's fetch resolves last, the selector ends with A's skins,
    the stale result; and whatever the interleaving of the statements of
    the two threads, once both have ended the selector holds the skins
    of A's document or of B's. *)
Theorem stale_result_wins_when_last
    (net : Net) (a0 : App) (A B : string) (cA cB : Champion)
    (dA dB : ChampionDetail) :
  A <> "" -> B <> "" ->
  find_champion (champions a0) A = Some cA ->
  find_champion (champions a0) B = Some cB ->
  get_champion_detail net (champ_id cA) = Ok (Detail dA) ->
  get_champion_detail net (champ_id cB) = Ok (Detail dB) ->
  let s0 := select_champion B (select_champion A (mkSys a0 [])) in
  let final sched := run net sched s0 in
  var_champion (sys_app s0) = B
  /\ (finished (final first_then_second) = true
      /\ cmb_skin_values (sys_app (final first_then_second))
           = selectable_skins (detail_skins dB))
  /\ (finished (final second_then_first) = true
      /\ cmb_skin_values (sys_app (final second_then_first))
           = selectable_skins (detail_skins dA))
  /\ (forall sched,
        finished (final sched) = true ->
        cmb_skin_values (sys_app (final sched))
          = selectable_skins (detail_skins dA)
        \/ cmb_skin_values (sys_app (final sched))
          = selectable_skins (detail_skins dB)).
Proof.
  intros HA HB HfA HfB HdA HdB. cbv zeta.
  rewrite (select_champion_found A cA (mkSys a0 []) HA HfA).
  set (s1 := mkSys _ _).
  rewrite (select_champion_found B cB s1 HB HfB).
  subst s1. cbn [sys_app sys_threads app].
  set (a2 := set_var_status _ (set_var_champion B _)).
  split; [reflexivity|].
  split; [|split].
  - apply (run_one_after_the_other net a2 0 1 _ (champ_id cA) (champ_id cB) dB);
      auto.
  - apply (run_one_after_the_other net a2 1 0 _ (champ_id cB) (champ_id cA) dA);
      auto.
  - intros sched Hfin.
    set (cids := [champ_id cA; champ_id cB]).
    assert (Hserved : forall cid, In cid cids ->
              exists d, get_champion_detail net cid = Ok (Detail d)).
    { intros cid [<-|[<-|[]]]; eauto. }
    set (s0 := mkSys a2 _) in *.
    assert (Hinv : sys_inv net cids s0).
    { unfold sys_inv, s0. cbn [sys_threads sys_app app].
      constructor; [split; [left; reflexivity|exact I]|].
      constructor; [split; [right; left; reflexivity|exact I]|].
      constructor. }
    pose proof (run_inv net cids Hserved sched s0 Hinv) as Hrun.
    assert (Hne : sys_threads (run net sched s0) <> []).
    { intros Hnil. pose proof (run_length net sched s0) as Hlen.
      rewrite Hnil in Hlen. discriminate Hlen. }
    destruct (finished_good_list net cids _ Hrun Hne Hfin)
      as (d & Hlist & cid & Hin & Hd).
    rewrite Hlist.
    destruct Hin as [<-|[<-|[]]]; [left|right]; congruence.
Qed.

Lemma stale_result_wins_when_last_witness :
  let s0 := select_champion "Zed" (select_champion "Ahri" (mkSys loaded_app [])) in
  let final sched := run cdragon sched s0 in
  var_champion (sys_app s0) = "Zed"
  /\ (finished (final first_then_second) = true
      /\ cmb_skin_values (sys_app (final first_then_second))
           = selectable_skins (detail_skins zed))
  /\ (finished (final second_then_first) = true
      /\ cmb_skin_values (sys_app (final second_then_first))
           = selectable_skins (detail_skins ahri))
  /\ (forall sched,
        finished (final sched) = true ->
        cmb_skin_values (sys_app (final sched))
          = selectable_skins (detail_skins ahri)
        \/ cmb_skin_values (sys_app (final sched))
          = selectable_skins (detail_skins zed)).
Proof.
  apply (stale_result_wins_when_last cdragon loaded_app "Ahri" "Zed"
           (mkChampion 103 "Ahri") (mkChampion 238 "Zed") ahri zed).
  - discriminate.
  - discriminate.
  - reflexivity.
  - reflexivity.
  - reflexivity.
  - reflexivity.
Defined.

(** C10 as stated fails: the user picks Ahri, then Zed before Ahri's
    fetch resolves; Zed's thread runs to its end, then Ahri's.  Both
    threads have ended, the selection is Zed, and the skin selector
    lists Ahri's skins, not Zed's. *)
Lemma stale_ahri_overwrites_zed :
  var_champion (sys_app stale_ahri) = "Zed"
  /\ finished stale_ahri = true
  /\ cmb_skin_values (sys_app stale_ahri)
       = ["Dynasty Ahri"; "Midnight Ahri"; "K/DA Ahri"]
  /\ cmb_skin_values (sys_app stale_ahri) = selectable_skins (detail_skins ahri)
  /\ cmb_skin_values (sys_app stale_ahri) <> selectable_skins (detail_skins zed).
Proof. vm_compute. repeat split. discriminate. Qed.

End StaleScenario.

(** * Further properties of the program *)

(** ** Helpers *)

Section MoreHelpers.
Import Helpers Fetch SkinChangerApp.

Lemma normalize_relative (path : string) :
  path <> "" -> is_absolute_url path = false ->
  exists rest, normalize_cdragon_path (Some path) = CDRAGON_BASE ++ "/" ++ rest.
Proof.
  intros Hne Habs. unfold normalize_cdragon_path.
  destruct path as [|c rest]; [congruence|].
  fold (is_absolute_url (String c rest)). rewrite Habs.
  destruct (startswith (String c rest) "/") eqn:Hs; cbn [negb].
  - apply startswith_slash in Hs as [rest' ->]. exists rest'. reflexivity.
  - exists (String c rest). reflexivity.
Qed.

Lemma normalize_cases (path : option string) :
  (normalize_cdragon_path path = "" /\ (path = None \/ path = Some ""))
  \/ (normalize_cdragon_path path <> ""
      /\ is_absolute_url (normalize_cdragon_path path) = true
      /\ path <> None /\ path <> Some "").
Proof.
  destruct path as [path|]; [|left; auto].
  destruct (String.eqb_spec path "") as [->|Hne]; [left; auto|].
  right. destruct (is_absolute_url path) eqn:Habs.
  - rewrite (normalize_absolute _ Habs).
    repeat split; congruence.
  - destruct (normalize_relative _ Hne Habs) as [rest ->].
    repeat split; try congruence; discriminate.
Qed.

(** X1. [normalize_cdragon_path] returns the empty string only for an
    absent or empty path, and every other result is an absolute URL: it
    starts with [http://] or [https://]. *)
Theorem normalize_cdragon_path_empty_or_absolute (path : option string) :
  (normalize_cdragon_path path = "" <-> path = None \/ path = Some "")
  /\ (normalize_cdragon_path path = ""
      \/ is_absolute_url (normalize_cdragon_path path) = true).
Proof.
  destruct (normalize_cases path) as [[He Hp]|(Hne & Habs & Hn & Hs)].
  - split; [tauto|auto].
  - split; [|auto]. split; [contradiction|]. intros [H|H]; contradiction.
Qed.

(** X2. [normalize_cdragon_path] is idempotent on every argument, not
    only on absolute URLs: normalizing its own result changes nothing. *)
Theorem normalize_cdragon_path_idempotent_everywhere (path : option string) :
  normalize_cdragon_path (Some (normalize_cdragon_path path))
    = normalize_cdragon_path path.
Proof.
  destruct (normalize_cases path) as [[He _]|(_ & Habs & _)].
  - rewrite He. reflexivity.
  - apply normalize_absolute, Habs.
Qed.

Lemma raise_for_status_ok (r : Response) :
  Requests.raise_for_status r = Ok tt
  <-> (status_code r < 400 \/ 600 <= status_code r).
Proof.
  unfold Requests.raise_for_status. cbv zeta.
  destruct (Z.leb_spec 400 (status_code r)), (Z.ltb_spec (status_code r) 500),
    (Z.leb_spec 500 (status_code r)), (Z.ltb_spec (status_code r) 600);
    cbn; split; intros Hx; try reflexivity; try discriminate; lia.
Qed.

(** X3. [fetch_json] returns a value exactly when the GET returned a
    response whose status is neither 4xx nor 5xx and whose body decodes
    to that value; in every other case it raises. *)
Theorem fetch_json_ok_iff (net : Net) (url : string) (d : Document) :
  fetch_json net url = Ok d
  <-> exists r, requests_get net url 30 = Returned r
                /\ (status_code r < 400 \/ 600 <= status_code r)
                /\ json r = Ok d.
Proof.
  unfold fetch_json, Requests.get, Requests.json_of.
  destruct (requests_get net url 30) as [r|msg|msg]; cbn.
  - destruct (Requests.raise_for_status r) as [[]|e] eqn:Hst; cbn.
    + apply raise_for_status_ok in Hst. split.
      * intros Hj. exists r. auto.
      * intros (r' & Hr & _ & Hj). injection Hr as <-. exact Hj.
    + split; [discriminate|].
      intros (r' & Hr & Hs & _). injection Hr as <-.
      apply raise_for_status_ok in Hs. congruence.
  - split; [discriminate|]. intros (r' & Hr & _). discriminate.
  - split; [discriminate|]. intros (r' & Hr & _). discriminate.
Qed.

(** X4. [_show_image_async] does exactly one of three things.  When the
    normalized URL is not empty and the existence check answers yes, it
    starts one preview thread for that URL and leaves the application
    as it is.  When the URL is empty or the check answers no, it starts
    nothing and sets the text of the label to the placeholder.  When
    the existence check raises, it raises the same exception, having
    written nothing and started nothing. *)
Theorem show_image_async_outcomes
    (net : Net) (path : option string) (self : App) :
  let url := normalize_cdragon_path path in
  (url <> "" /\ check_url_exists net url = Ok true
   /\ _show_image_async net path self = (self, Ok [ShowImageTask url])
   /\ is_absolute_url url = true)
  \/ ((url = "" \/ check_url_exists net url = Ok false)
      /\ _show_image_async net path self
         = (set_preview_text NO_IMAGE self, Ok []))
  \/ (exists e,
        url <> "" /\ check_url_exists net url = Raise e
        /\ _show_image_async net path self = (self, Raise e)).
Proof.
  cbv zeta. unfold _show_image_async.
  destruct (String.eqb_spec (normalize_cdragon_path path) "") as [He|Hne].
  - right. left. auto.
  - destruct (check_url_exists net (normalize_cdragon_path path))
      as [[]|e] eqn:Hc.
    + left. repeat split; auto.
      destruct (normalize_cases path) as [[He _]|(_ & Habs & _)];
        [contradiction|exact Habs].
    + right. left. auto.
    + right. right. exists e. auto.
Qed.

End MoreHelpers.

(** ** The catalog *)

Section CatalogLoad.
Import Fetch SkinChangerApp Catalog.

Lemma ltb_leb (a b : string) : String.ltb a b = true -> String.leb a b = true.
Proof. unfold String.ltb, String.leb. destruct (String.compare a b); auto. Qed.

Lemma ltb_false_leb (a b : string) :
  String.ltb a b = false -> String.leb b a = true.
Proof.
  unfold String.ltb, String.leb. rewrite (String.compare_antisym b a).
  destruct (String.compare a b); cbn; auto.
Qed.

Lemma ltb_irrefl (a : string) : String.ltb a a = false.
Proof.
  unfold String.ltb. pose proof (String.compare_antisym a a) as H.
  destruct (String.compare a a); cbn in H; congruence.
Qed.

Lemma leb_trans (a b c : string) :
  String.leb a b = true -> String.leb b c = true -> String.leb a c = true.
Proof.
  intros Hab Hbc. apply Is_true_true.
  apply (transitivity (R := String.le) (y := b)); apply Is_true_true; auto.
Qed.

Lemma insert_by_name_perm (c : Champion) (l : list Champion) :
  insert_by_name c l ≡ₚ c :: l.
Proof.
  induction l as [|x l IH]; cbn; [reflexivity|].
  destruct (String.ltb _ _); [|reflexivity].
  rewrite IH. apply Permutation_swap.
Qed.

Lemma insert_by_name_sorted (c : Champion) (l : list Champion) :
  StronglySorted name_le l -> StronglySorted name_le (insert_by_name c l).
Proof.
  induction l as [|x l IH]; intros Hs; cbn.
  - repeat constructor.
  - apply StronglySorted_inv in Hs as [Hl Hx].
    destruct (String.ltb (champ_name x) (champ_name c)) eqn:Hlt.
    + constructor; [apply IH, Hl|].
      rewrite insert_by_name_perm. constructor; [apply ltb_leb, Hlt|exact Hx].
    + apply ltb_false_leb in Hlt.
      constructor; [constructor; assumption|].
      constructor; [exact Hlt|].
      eapply Forall_impl; [exact Hx|].
      intros y Hy. unfold name_le in *. eapply leb_trans; eassumption.
Qed.

Lemma sorted_by_name_perm (l : list Champion) : sorted_by_name l ≡ₚ l.
Proof.
  induction l as [|c l IH]; cbn; [reflexivity|].
  rewrite insert_by_name_perm, IH. reflexivity.
Qed.

Lemma sorted_by_name_sorted (l : list Champion) :
  StronglySorted name_le (sorted_by_name l).
Proof.
  induction l as [|c l IH]; cbn; [constructor|].
  apply insert_by_name_sorted, IH.
Qed.

Lemma find_champion_insert (c : Champion) (l : list Champion) (name : string) :
  find_champion (insert_by_name c l) name = find_champion (c :: l) name.
Proof.
  unfold find_champion. induction l as [|x l IH]; [reflexivity|].
  cbn [insert_by_name].
  destruct (String.ltb (champ_name x) (champ_name c)) eqn:Hlt; [|reflexivity].
  cbn [List.find] in *. rewrite IH.
  destruct (String.eqb_spec (champ_name c) name) as [Hc|Hc];
    destruct (String.eqb_spec (champ_name x) name) as [Hx|Hx]; try reflexivity.
  rewrite Hc, Hx, ltb_irrefl in Hlt. discriminate.
Qed.

(** The sort is stable: the first champion with a given name is the
    same before and after. *)
Lemma find_champion_sorted (l : list Champion) (name : string) :
  find_champion (sorted_by_name l) name = find_champion l name.
Proof.
  induction l as [|c l IH]; [reflexivity|].
  cbn [sorted_by_name foldr]. fold (sorted_by_name l).
  rewrite find_champion_insert. unfold find_champion in *. cbn [List.find].
  rewrite IH. reflexivity.
Qed.

Lemma find_champion_some (l : list Champion) (name : string) :
  In name (map champ_name l) -> exists c, find_champion l name = Some c.
Proof.
  unfold find_champion. induction l as [|x l IH]; cbn; [tauto|].
  intros [Hx|Hin].
  - rewrite Hx, String.eqb_refl. eauto.
  - destruct (String.eqb _ _); eauto.
Qed.

(** X5. When the summary arrives, the nested task of
    [_populate_champions_async] stores a permutation of it sorted by
    name, fills the champion selector with the names in that order, so
    in ascending order, and sets the status line. *)
Theorem populate_champions_sorted (l : list Champion) (self : App) :
  let a := populate_champions_task (Ok l) self in
  champions a ≡ₚ l
  /\ StronglySorted name_le (champions a)
  /\ cmb_champion_values a = map champ_name (champions a)
  /\ StronglySorted (fun x y => String.leb x y = true) (cmb_champion_values a)
  /\ var_status a = "Choisissez un champion.".
Proof.
  cbv zeta. cbn.
  split; [apply sorted_by_name_perm|].
  split; [apply sorted_by_name_sorted|].
  split; [reflexivity|]. split; [|reflexivity].
  pose proof (sorted_by_name_sorted l) as Hs.
  induction Hs as [|x xs Hxs IH Hx]; cbn; constructor; [exact IH|].
  apply Forall_fmap. exact Hx.
Qed.

(** X6. After the catalog is loaded, picking any listed name that is not
    empty starts exactly one detail fetch, and that fetch is for the id
    of the first champion of the summary, in the order the API served
    it, that has this name. *)
Theorem populate_then_select (l : list Champion) (self : App) (name : string) :
  let a := populate_champions_task (Ok l) self in
  In name (cmb_champion_values a) ->
  name <> "" ->
  exists c,
    find_champion l name = Some c
    /\ on_champion_selected (set_var_champion name a)
       = (set_var_status "Chargement des skins…" (set_var_champion name a),
          [LoadChampData (champ_id c)]).
Proof.
  cbv zeta. intros Hin Hne. cbn in Hin.
  destruct (find_champion_some _ _ Hin) as [c Hc].
  exists c. split; [rewrite <- find_champion_sorted; exact Hc|].
  apply on_champion_selected_found; [exact Hne|exact Hc].
Qed.

Lemma populate_then_select_witness :
  exists c,
    find_champion [mkChampion 238 "Zed"; mkChampion 103 "Ahri";
                   mkChampion 999 "Zed"] "Zed" = Some c
    /\ on_champion_selected
         (set_var_champion "Zed"
            (populate_champions_task
               (Ok [mkChampion 238 "Zed"; mkChampion 103 "Ahri";
                    mkChampion 999 "Zed"]) init_app))
       = (set_var_status "Chargement des skins…"
            (set_var_champion "Zed"
               (populate_champions_task
                  (Ok [mkChampion 238 "Zed"; mkChampion 103 "Ahri";
                       mkChampion 999 "Zed"]) init_app)),
          [LoadChampData (champ_id c)]).
Proof.
  apply (populate_then_select
           [mkChampion 238 "Zed"; mkChampion 103 "Ahri"; mkChampion 999 "Zed"]
           init_app "Zed").
  - right. left. reflexivity.
  - discriminate.
Defined.

(** X7. When the summary fetch raises, the task only sets the status
    line: the catalog and the champion selector stay as they were, and
    with an empty catalog no pick can start a detail fetch. *)
Theorem populate_champions_failure (e : Exn) (self : App) (name : string) :
  let a := populate_champions_task (Raise e) self in
  var_status a = "Erreur chargement champions : " ++ str_exn e
  /\ champions a = champions self
  /\ cmb_champion_values a = cmb_champion_values self
  /\ (champions self = [] ->
      on_champion_selected (set_var_champion name a)
        = (set_var_champion name a, [])).
Proof.
  cbv zeta. cbn. repeat split.
  intros Hnil. unfold on_champion_selected. cbn. rewrite Hnil. cbn.
  destruct (String.eqb name ""); reflexivity.
Qed.

(** X8. [on_champion_selected] clears nothing.  It starts no thread and
    changes nothing when the name is empty or unknown; otherwise it
    changes the status line only, so the skins and chromas of the
    previous champion stay listed and selected while the fetch runs. *)
Theorem on_champion_selected_frame (self : App) :
  let '(a, started) := on_champion_selected self in
  ((a = self /\ started = []
    /\ (var_champion self = ""
        \/ find_champion (champions self) (var_champion self) = None))
   \/ (exists champ,
         find_champion (champions self) (var_champion self) = Some champ
         /\ var_champion self <> ""
         /\ a = set_var_status "Chargement des skins…" self
         /\ started = [LoadChampData (champ_id champ)]))
  /\ cmb_skin_values a = cmb_skin_values self
  /\ var_skin a = var_skin self
  /\ cmb_chroma_values a = cmb_chroma_values self
  /\ var_chroma a = var_chroma self
  /\ current_champion_data a = current_champion_data self.
Proof.
  unfold on_champion_selected.
  destruct (String.eqb_spec (var_champion self) "") as [He|Hne].
  - split; [left; auto|repeat split].
  - destruct (find_champion (champions self) (var_champion self)) as [c|] eqn:Hf.
    + split; [right; exists c; auto|repeat split].
    + split; [left; auto|repeat split].
Qed.

End CatalogLoad.

(** ** Skins and chromas *)

Section SkinsAndChromas.
Import Helpers Fetch SkinChangerApp.

Lemma show_image_async_app (net : Net) (path : option string) (self : App) :
  (_show_image_async net path self).1 = self
  \/ (_show_image_async net path self).1 = set_preview_text NO_IMAGE self.
Proof.
  unfold _show_image_async. destruct (String.eqb _ _); [cbn; auto|].
  destruct (check_url_exists net _) as [[]|e]; cbn; auto.
Qed.

Lemma show_image_async_started (net : Net) (path : option string) (self : App)
    (tasks : list Task) :
  (_show_image_async net path self).2 = Ok tasks ->
  tasks = [] \/ exists url, tasks = [ShowImageTask url].
Proof.
  unfold _show_image_async. destruct (String.eqb _ _); [cbn; intros [= <-]; auto|].
  destruct (check_url_exists net _) as [[]|e]; cbn; intros [= <-]; eauto.
Qed.

Lemma show_image_async_raise (net : Net) (path : option string) (self : App)
    (e : Exn) :
  (_show_image_async net path self).2 = Raise e ->
  (_show_image_async net path self).1 = self
  /\ check_url_exists net (normalize_cdragon_path path) = Raise e.
Proof.
  unfold _show_image_async. destruct (String.eqb _ _); [discriminate|].
  destruct (check_url_exists net _) as [[]|e']; cbn; try discriminate.
  intros [= <-]. auto.
Qed.

Lemma check_url_exists_raise (net : Net) (url : string) (e : Exn) :
  check_url_exists net url = Raise e ->
  exc_class e = LocationParseError
  /\ requests_get net url 30 = Leaked (exc_msg e).
Proof.
  unfold check_url_exists. destruct (requests_get net url 30); try discriminate.
  intros [= <-]. auto.
Qed.

Lemma find_chroma_some (cs : list Chroma) (name : string) :
  In name (map chroma_name cs) ->
  exists ch, find_chroma cs name = Some ch /\ chroma_name ch = name.
Proof.
  unfold find_chroma. induction cs as [|x cs IH]; cbn; [tauto|].
  intros Hin. destruct (String.eqb_spec (chroma_name x) name) as [He|Hne].
  - eauto.
  - destruct Hin as [Hx|Hin]; [contradiction|auto].
Qed.

Lemma find_skin_some (skins : list Skin) (name : string) :
  In name (map skin_name skins) ->
  exists s, find_skin skins name = Some s /\ skin_name s = name.
Proof.
  unfold find_skin. induction skins as [|x skins IH]; cbn; [tauto|].
  intros Hin. destruct (String.eqb_spec (skin_name x) name) as [He|Hne].
  - eauto.
  - destruct Hin as [Hx|Hin]; [contradiction|auto].
Qed.

Lemma on_skin_selected_found
    (net : Net) (self : App) (data : ChampionDetail) (skin : Skin) :
  var_skin self <> "" ->
  current_champion_data self = Some (Detail data) ->
  find_skin (detail_skins data) (var_skin self) = Some skin ->
  on_skin_selected net self
    = _show_image_async net (skin_splashPath skin)
        (set_var_chroma
           (match map chroma_name (default [] (skin_chromas skin)) with
            | [] => PLACEHOLDER
            | c :: _ => c
            end)
           (set_cmb_chroma_values
              (match map chroma_name (default [] (skin_chromas skin)) with
               | [] => [PLACEHOLDER]
               | _ => map chroma_name (default [] (skin_chromas skin))
               end) self)).
Proof.
  intros Hname Hdata Hfind. unfold on_skin_selected.
  destruct (String.eqb_spec (var_skin self) "") as [He|_]; [contradiction|].
  rewrite Hdata, Hfind. reflexivity.
Qed.

(** X9. When the skin that [on_skin_selected] finds has chromas, the
    chroma selector lists their names in order and the first one is
    selected, but the preview that is requested is that of the skin's
    own splash path, not of the chroma that was just selected. *)
Theorem on_skin_selected_with_chromas
    (net : Net) (self : App) (data : ChampionDetail) (skin : Skin)
    (c : Chroma) (cs : list Chroma) :
  var_skin self <> "" ->
  current_champion_data self = Some (Detail data) ->
  find_skin (detail_skins data) (var_skin self) = Some skin ->
  skin_chromas skin = Some (c :: cs) ->
  let '(a, started) := on_skin_selected net self in
  cmb_chroma_values a = map chroma_name (c :: cs)
  /\ var_chroma a = chroma_name c
  /\ (started = Ok []
      \/ started
         = Ok [ShowImageTask (normalize_cdragon_path (skin_splashPath skin))]
      \/ exists e,
           started = Raise e
           /\ check_url_exists net
                (normalize_cdragon_path (skin_splashPath skin)) = Raise e)
  /\ on_skin_selected net self
       = _show_image_async net (skin_splashPath skin)
           (set_var_chroma (chroma_name c)
              (set_cmb_chroma_values (map chroma_name (c :: cs)) self)).
Proof.
  intros Hname Hdata Hfind Hchromas.
  rewrite (on_skin_selected_found _ _ _ _ Hname Hdata Hfind), Hchromas.
  cbn [default from_option map].
  pose proof (show_image_async_frame net (skin_splashPath skin)
                (set_var_chroma (chroma_name c)
                   (set_cmb_chroma_values
                      (chroma_name c :: map chroma_name cs) self))) as Hframe.
  destruct (_show_image_async _ _ _) as [a started].
  destruct Hframe as (Hv & Hc & Hs). auto.
Qed.

Lemma on_skin_selected_with_chromas_witness :
  let '(a, started) :=
    on_skin_selected cdragon
      (set_var_skin "K/DA Ahri"
         (set_current_champion_data (Some (Detail ahri)) loaded_app)) in
  cmb_chroma_values a = map chroma_name [mkChroma "Ruby" (Some "/assets/ahri_16.jpg")]
  /\ var_chroma a = "Ruby"
  /\ (started = Ok []
      \/ started
         = Ok [ShowImageTask (normalize_cdragon_path (Some "/assets/ahri_15.jpg"))]
      \/ exists e,
           started = Raise e
           /\ check_url_exists cdragon
                (normalize_cdragon_path (Some "/assets/ahri_15.jpg")) = Raise e)
  /\ on_skin_selected cdragon
       (set_var_skin "K/DA Ahri"
          (set_current_champion_data (Some (Detail ahri)) loaded_app))
     = _show_image_async cdragon (Some "/assets/ahri_15.jpg")
         (set_var_chroma "Ruby"
            (set_cmb_chroma_values
               (map chroma_name [mkChroma "Ruby" (Some "/assets/ahri_16.jpg")])
               (set_var_skin "K/DA Ahri"
                  (set_current_champion_data (Some (Detail ahri)) loaded_app)))).
Proof.
  apply (on_skin_selected_with_chromas cdragon
           (set_var_skin "K/DA Ahri"
              (set_current_champion_data (Some (Detail ahri)) loaded_app))
           ahri
           (mkSkin "K/DA Ahri" (Some false) (Some "/assets/ahri_15.jpg")
              (Some [mkChroma "Ruby" (Some "/assets/ahri_16.jpg")]))
           (mkChroma "Ruby" (Some "/assets/ahri_16.jpg")) []).
  - discriminate.
  - reflexivity.
  - reflexivity.
  - reflexivity.
Defined.

(** X10. After [on_skin_selected] has listed the chromas of a skin of a
    document of the documented shape, whether or not its own preview
    request raised, picking any listed chroma whose name is neither
    empty nor the placeholder is no lookup miss: [on_chroma_selected]
    does exactly what [_show_image_async] does on the splash path of the
    first chroma of that skin with this name, so it requests that
    preview, or raises what the existence check of that path raises. *)
Theorem skin_then_chroma
    (net net' : Net) (self : App) (data : ChampionDetail) (skin : Skin)
    (name : string) :
  var_skin self <> "" ->
  current_champion_data self = Some (Detail data) ->
  find_skin (detail_skins data) (var_skin self) = Some skin ->
  let a := (on_skin_selected net self).1 in
  In name (map chroma_name (default [] (skin_chromas skin))) ->
  name <> "" -> name <> PLACEHOLDER ->
  In name (cmb_chroma_values a)
  /\ exists ch,
       find_chroma (default [] (skin_chromas skin)) name = Some ch
       /\ on_chroma_selected net' (set_var_chroma name a)
          = _show_image_async net' (chroma_splashPath ch)
              (set_var_chroma name a).
Proof.
  intros Hname Hdata Hfind. cbv zeta. intros Hin Hne Hnp.
  rewrite (on_skin_selected_found _ _ _ _ Hname Hdata Hfind).
  set (self1 := set_var_chroma _ (set_cmb_chroma_values _ self)).
  assert (Hlist : In name (cmb_chroma_values self1)).
  { subst self1. cbn.
    destruct (map chroma_name (default [] (skin_chromas skin))); [destruct Hin|exact Hin]. }
  assert (Hsame :
    forall a, a = self1 \/ a = set_preview_text NO_IMAGE self1 ->
      In name (cmb_chroma_values a)
      /\ current_champion_data a = Some (Detail data)
      /\ var_skin a = var_skin self).
  { intros a [->| ->]; cbn; auto. }
  destruct (Hsame _ (show_image_async_app net (skin_splashPath skin) self1))
    as (Hl & Hd & Hs).
  split; [exact Hl|].
  destruct (find_chroma_some _ _ Hin) as (ch & Hch & _).
  exists ch. split; [exact Hch|].
  unfold on_chroma_selected.
  cbn [var_chroma set_var_chroma current_champion_data var_skin].
  destruct (String.eqb_spec name PLACEHOLDER) as [|_]; [contradiction|].
  destruct (String.eqb_spec name "") as [|_]; [contradiction|].
  cbn [orb]. rewrite Hd, Hs, Hfind, Hch. reflexivity.
Qed.

Lemma skin_then_chroma_witness :
  let a :=
    (on_skin_selected cdragon
       (set_var_skin "K/DA Ahri"
          (set_current_champion_data (Some (Detail ahri)) loaded_app))).1 in
  In "Ruby" (cmb_chroma_values a)
  /\ exists ch,
       find_chroma [mkChroma "Ruby" (Some "/assets/ahri_16.jpg")] "Ruby"
         = Some ch
       /\ on_chroma_selected cdragon (set_var_chroma "Ruby" a)
          = _show_image_async cdragon (chroma_splashPath ch)
              (set_var_chroma "Ruby" a).
Proof.
  apply (skin_then_chroma cdragon cdragon
           (set_var_skin "K/DA Ahri"
              (set_current_champion_data (Some (Detail ahri)) loaded_app))
           ahri
           (mkSkin "K/DA Ahri" (Some false) (Some "/assets/ahri_15.jpg")
              (Some [mkChroma "Ruby" (Some "/assets/ahri_16.jpg")]))
           "Ruby").
  - discriminate.
  - reflexivity.
  - reflexivity.
  - left. reflexivity.
  - discriminate.
  - discriminate.
Defined.

(** Whether it returns or raises, [on_chroma_selected] writes at most
    the text of the preview label. *)
Lemma on_chroma_selected_app (net : Net) (self : App) :
  (on_chroma_selected net self).1 = self
  \/ (on_chroma_selected net self).1 = set_preview_text NO_IMAGE self.
Proof.
  unfold on_chroma_selected.
  destruct (_ || _); [auto|].
  destruct (current_champion_data self) as [[data|t e]|]; [|auto|auto].
  destruct (find_skin _ _) as [skin|]; [|auto].
  destruct (find_chroma _ _) as [chroma|]; [|auto].
  apply show_image_async_app.
Qed.

(** What [on_chroma_selected] can raise in a state that holds a
    document of the documented shape or has no chroma selected: only
    what the existence check of a preview raises. *)
Lemma on_chroma_selected_raises (net : Net) (self : App) (e : Exn) :
  (on_chroma_selected net self).2 = Raise e ->
  (current_champion_data self = None
   /\ var_chroma self <> "" /\ var_chroma self <> PLACEHOLDER)
  \/ (exists truthy, current_champion_data self = Some (Other truthy e)
                     /\ var_chroma self <> "" /\ var_chroma self <> PLACEHOLDER)
  \/ (exists url, check_url_exists net url = Raise e).
Proof.
  unfold on_chroma_selected.
  destruct (String.eqb_spec (var_chroma self) PLACEHOLDER) as [|Hp];
    [discriminate|].
  destruct (String.eqb_spec (var_chroma self) "") as [|He]; [discriminate|].
  cbn [orb].
  destruct (current_champion_data self) as [[data|t e']|].
  - destruct (find_skin _ _) as [skin|]; [|discriminate].
    destruct (find_chroma _ _) as [chroma|]; [|discriminate].
    intros Hr. apply show_image_async_raise in Hr as [_ Hc]. eauto.
  - cbn. intros [= <-]. right. left. eauto.
  - auto.
Qed.

(** X11. Whether it returns or raises, [on_chroma_selected] changes at
    most the text of the preview label, and when it returns it has
    started at most one thread, a preview.  With an empty chroma or the
    placeholder it returns having done nothing.  With any other chroma
    it raises, having written nothing, when no document is loaded (the
    [TypeError] of subscripting [None]) and when the stored value is
    not an object with a [skins] key (the error of that subscript). *)
Theorem on_chroma_selected_cases (net : Net) (self : App) :
  ((on_chroma_selected net self).1 = self
   \/ (on_chroma_selected net self).1 = set_preview_text NO_IMAGE self)
  /\ (forall tasks, (on_chroma_selected net self).2 = Ok tasks ->
        tasks = [] \/ exists url, tasks = [ShowImageTask url])
  /\ (var_chroma self = "" \/ var_chroma self = PLACEHOLDER ->
      on_chroma_selected net self = (self, Ok []))
  /\ (var_chroma self <> "" -> var_chroma self <> PLACEHOLDER ->
      (current_champion_data self = None ->
       exists e, on_chroma_selected net self = (self, Raise e)
                 /\ exc_class e = TypeError)
      /\ (forall truthy e,
            current_champion_data self = Some (Other truthy e) ->
            on_chroma_selected net self = (self, Raise e))).
Proof.
  split; [apply on_chroma_selected_app|]. split; [|split].
  - unfold on_chroma_selected.
    destruct (_ || _); [cbn; intros tasks [= <-]; auto|].
    destruct (current_champion_data self) as [[data|t e]|];
      [|discriminate|discriminate].
    destruct (find_skin _ _) as [skin|]; [|cbn; intros tasks [= <-]; auto].
    destruct (find_chroma _ _) as [chroma|]; [|cbn; intros tasks [= <-]; auto].
    apply show_image_async_started.
  - unfold on_chroma_selected. intros [->| ->]; [|reflexivity].
    destruct (String.eqb _ _); reflexivity.
  - intros He Hp. unfold on_chroma_selected.
    destruct (String.eqb_spec (var_chroma self) PLACEHOLDER) as [|_];
      [contradiction|].
    destruct (String.eqb_spec (var_chroma self) "") as [|_]; [contradiction|].
    cbn [orb]. split.
    + intros ->. eauto.
    + intros t e ->. reflexivity.
Qed.

(** [on_skin_selected] does nothing at all, and starts nothing, when
    the skin variable is empty, when no champion document is loaded, or
    when the document has no skin with the selected name. *)
Lemma on_skin_selected_guards (net : Net) (self : App) :
  var_skin self = ""
  \/ current_champion_data self = None
  \/ (exists data, current_champion_data self = Some (Detail data)
                   /\ find_skin (detail_skins data) (var_skin self) = None) ->
  on_skin_selected net self = (self, Ok []).
Proof.
  unfold on_skin_selected. intros [H|[H|(data & Hd & Hf)]].
  - rewrite H. reflexivity.
  - rewrite H. cbn. rewrite orb_true_r. reflexivity.
  - rewrite Hd, Hf. cbn. destruct (String.eqb _ _); reflexivity.
Qed.

Lemma on_skin_selected_guards_witness :
  on_skin_selected cdragon
    (set_var_skin "Shockblade Zed"
       (set_current_champion_data (Some (Detail ahri)) loaded_app))
  = (set_var_skin "Shockblade Zed"
       (set_current_champion_data (Some (Detail ahri)) loaded_app), Ok []).
Proof.
  apply (on_skin_selected_guards cdragon
           (set_var_skin "Shockblade Zed"
              (set_current_champion_data (Some (Detail ahri)) loaded_app))).
  right. right. exists ahri. split; reflexivity.
Defined.

End SkinsAndChromas.

(** ** Downloads *)

Section Downloads.
Import Download Desk.

Lemma download_zip_request_fails (os : OS) (net : Net)
    (champion zip_name target_dir : string) (files : gmap string string) :
  (forall r,
     requests_get net (GITHUB_ZIP_BASE ++ champion ++ "/" ++ zip_name) 60
       = Returned r ->
     400 <= status_code r < 600) ->
  exists e,
    download_zip os net champion zip_name target_dir files = (Raise e, files).
Proof.
  intros Hbad. unfold download_zip, Requests.get. cbv zeta.
  destruct (requests_get net _ 60) as [r|msg|msg]; [|eauto|eauto].
  specialize (Hbad r eq_refl).
  destruct (Requests.raise_for_status r) as [[]|e] eqn:Hst; [|eauto].
  apply raise_for_status_ok in Hst. lia.
Qed.

Lemma download_zip_returns (os : OS) (net : Net)
    (champion zip_name target_dir : string) (files files' : gmap string string)
    (path : string) :
  download_zip os net champion zip_name target_dir files = (Ok path, files') ->
  path = joinpath os target_dir zip_name
  /\ exists r,
       requests_get net (GITHUB_ZIP_BASE ++ champion ++ "/" ++ zip_name) 60
         = Returned r
       /\ (status_code r < 400 \/ 600 <= status_code r)
       /\ files' = <[path := content r]> files.
Proof.
  unfold download_zip, Requests.get. cbv zeta.
  destruct (requests_get net _ 60) as [r|msg|msg]; [|discriminate|discriminate].
  destruct (Requests.raise_for_status r) as [[]|e] eqn:Hst; [|discriminate].
  destruct (open_wb os _) as [msg|] eqn:Hopen; [discriminate|].
  intros [= <- <-]. split; [reflexivity|].
  exists r. split; [reflexivity|]. split; [|reflexivity].
  apply raise_for_status_ok, Hst.
Qed.

(** X12. When the GET raises or answers with a 4xx or 5xx status,
    [download_zip] raises before it opens the file, and every file is
    as it was.  When [download_zip] returns, it returns the join of the
    directory and the file name, the response had a status that is
    neither 4xx nor 5xx (a 304 counts), and that one path holds the
    body of the response while every other file is as it was. *)
Theorem download_zip_cases (os : OS) (net : Net)
    (champion zip_name target_dir : string) (files : gmap string string) :
  let url := GITHUB_ZIP_BASE ++ champion ++ "/" ++ zip_name in
  ((forall r, requests_get net url 60 = Returned r ->
              400 <= status_code r < 600) ->
   exists e,
     download_zip os net champion zip_name target_dir files = (Raise e, files))
  /\ (forall path files',
        download_zip os net champion zip_name target_dir files
          = (Ok path, files') ->
        path = joinpath os target_dir zip_name
        /\ (exists r,
              requests_get net url 60 = Returned r
              /\ (status_code r < 400 \/ 600 <= status_code r)
              /\ files' !! path = Some (content r))
        /\ (forall other, other <> path -> files' !! other = files !! other)).
Proof.
  cbv zeta. split; [apply download_zip_request_fails|].
  intros path files' Hret.
  destruct (download_zip_returns _ _ _ _ _ _ _ _ Hret)
    as (Hpath & r & Hget & Hst & ->).
  split; [exact Hpath|]. split.
  - exists r. split; [exact Hget|]. split; [exact Hst|].
    apply lookup_insert_eq.
  - intros other Hne. apply lookup_insert_ne. congruence.
Qed.

(** X13. [download_selected_skin] starts a download only when both a
    champion and a skin are selected, and the download is for that
    champion and that skin; otherwise it shows one warning and starts
    nothing.  In both cases the application state and the disk are left
    as they were. *)
Theorem download_selected_skin_validates (d : Desktop) :
  let '(d', job) := download_selected_skin d in
  dk_app d' = dk_app d /\ dk_files d' = dk_files d
  /\ ((job = None
       /\ (var_champion (dk_app d) = "" \/ var_skin (dk_app d) = "")
       /\ dk_events d'
          = (dk_events d ++
               [showwarning "Sélection manquante"
                  "Choisissez un champion et un skin."])%list)
      \/ (job = Some (var_champion (dk_app d), var_skin (dk_app d))
          /\ var_champion (dk_app d) <> "" /\ var_skin (dk_app d) <> ""
          /\ d' = d)).
Proof.
  unfold download_selected_skin. cbv zeta.
  destruct (String.eqb_spec (var_champion (dk_app d)) "") as [Hc|Hc];
    destruct (String.eqb_spec (var_skin (dk_app d)) "") as [Hs|Hs];
    cbn; repeat split; auto.
Qed.


(** X14. When the GET of the download task raises or answers with a 4xx
    or 5xx status, the task leaves every file as it was, sets the
    status line to the failure message and calls one error dialog with
    the text of the exception, and nothing else: no information dialog
    and no process.  In every case, the task starts a process only after
    [download_zip] returned a path, only when [os.name] is [nt], and
    then it is the [explorer /select] command on that path. *)
Theorem download_task_failure_and_reveal
    (os : OS) (os_name : string) (net : Net)
    (cache champ skin : string) (d : Desktop) :
  let d' := download_task os os_name net cache champ skin d in
  ((forall r,
      requests_get net (GITHUB_ZIP_BASE ++ champ ++ "/" ++ skin ++ ".zip") 60
        = Returned r ->
      400 <= status_code r < 600) ->
   exists e,
     dk_files d' = dk_files d
     /\ var_status (dk_app d') = "Erreur téléchargement"
     /\ dk_events d' = (dk_events d ++ [showerror "Erreur" (str_exn e)])%list)
  /\ (forall command,
        In (Popen command) (dk_events d') ->
        In (Popen command) (dk_events d)
        \/ (os_name = "nt"
            /\ (download_zip os net champ (skin ++ ".zip") cache (dk_files d)).1
               = Ok (joinpath os cache (skin ++ ".zip"))
            /\ command
               = "explorer /select," ++ DQUOTE
                   ++ joinpath os cache (skin ++ ".zip") ++ DQUOTE)).
Proof.
  cbv zeta. unfold download_task. split.
  - intros Hbad.
    destruct (download_zip_request_fails os net champ (skin ++ ".zip") cache
                (dk_files d) Hbad) as [e ->].
    exists e. cbn. auto.
  - intros command.
    pose proof (download_zip_returns os net champ (skin ++ ".zip") cache
                  (dk_files d)) as Hret.
    destruct (download_zip os net champ (skin ++ ".zip") cache (dk_files d))
      as [[path|e] files']; cbn [dk_events fst].
    + destruct (Hret files' path eq_refl) as (-> & _).
      unfold open_explorer.
      destruct (String.eqb_spec os_name "nt") as [Hnt|Hnt].
      * rewrite !in_app_iff. cbn.
        intros [[H|[H|[]]]|[H|[]]]; try discriminate; auto.
        injection H as <-. auto.
      * rewrite in_app_iff. cbn. intros [H|[H|[]]]; [auto|discriminate].
    + rewrite in_app_iff. cbn. intros [H|[H|[]]]; [auto|discriminate].
Qed.

Lemma download_task_failure_and_reveal_witness :
  let d := mkDesktop ahri_listed ∅ [] in
  let d' := download_task sample_os "nt" (always not_found)
              "C:/skin-cache" "Ahri" "Dynasty Ahri" d in
  (exists e,
     dk_files d' = dk_files d
     /\ var_status (dk_app d') = "Erreur téléchargement"
     /\ dk_events d' = (dk_events d ++ [showerror "Erreur" (str_exn e)])%list).
Proof.
  apply (download_task_failure_and_reveal sample_os "nt" (always not_found)
           "C:/skin-cache" "Ahri" "Dynasty Ahri" (mkDesktop ahri_listed ∅ [])).
  intros r [= <-]. cbn. lia.
Defined.

End Downloads.

(** ** Reachable states *)

Section Reachable.
Import Helpers Fetch SkinChangerApp Catalog Desk Session.

(** [consistent] only looks at the document and the skin and chroma
    widgets. *)
Lemma consistent_same (a a' : App) :
  current_champion_data a' = current_champion_data a ->
  cmb_skin_values a' = cmb_skin_values a ->
  var_skin a' = var_skin a ->
  cmb_chroma_values a' = cmb_chroma_values a ->
  var_chroma a' = var_chroma a ->
  consistent a -> consistent a'.
Proof.
  unfold consistent. intros -> -> -> -> ->. auto.
Qed.

Lemma consistent_loaded (a a' : App) (d : ChampionDetail) :
  current_champion_data a = Some (Detail d) ->
  current_champion_data a' = Some (Detail d) ->
  cmb_skin_values a' = cmb_skin_values a ->
  consistent a -> consistent a'.
Proof.
  unfold consistent. intros -> -> ->. auto.
Qed.

Lemma consistent_listed (a : App) (name : string) :
  consistent a -> In name (cmb_skin_values a) ->
  exists d, current_champion_data a = Some (Detail d)
            /\ In name (selectable_skins (detail_skins d)).
Proof.
  unfold consistent. destruct (current_champion_data a) as [[d|t e]|].
  - intros Heq Hin. exists d. rewrite <- Heq. auto.
  - intros [].
  - intros (Hnil & _) Hin. rewrite Hnil in Hin. destruct Hin.
Qed.

Lemma consistent_chroma_listed (a : App) (name : string) :
  consistent a -> In name (cmb_chroma_values a) ->
  exists d, current_champion_data a = Some (Detail d).
Proof.
  unfold consistent. destruct (current_champion_data a) as [[d|t e]|]; [eauto| |].
  - intros [].
  - intros (_ & _ & Hnil & _) Hin. rewrite Hnil in Hin. destruct Hin.
Qed.

Lemma show_image_task_same (pil : Imaging) (net : Net) (url : string) (a : App) :
  consistent a -> consistent (show_image_task pil net url a).
Proof.
  apply consistent_same;
    unfold show_image_task, show_image_task_in;
    destruct (show_image_try _ _ _ _); reflexivity.
Qed.

Lemma load_champ_data_other (net : Net) (cid : Z) (truthy : bool) (e : Exn)
    (self : App) :
  get_champion_detail net cid = Ok (Other truthy e) ->
  _load_champ_data net cid self
    = load_except e (set_current_champion_data (Some (Other truthy e)) self).
Proof.
  intros Hget. unfold _load_champ_data, load_store. rewrite Hget. reflexivity.
Qed.

Lemma load_champ_data_consistent (net : Net) (cid : Z) (a : App) :
  (forall truthy e, get_champion_detail net cid <> Ok (Other truthy e)) ->
  consistent a -> consistent (_load_champ_data net cid a).
Proof.
  intros Hshape Ha.
  destruct (get_champion_detail net cid) as [[d|t e]|e] eqn:Hget.
  - rewrite (load_champ_data_ok _ _ _ _ Hget). reflexivity.
  - destruct (Hshape t e eq_refl).
  - rewrite (load_champ_data_raise _ _ _ _ Hget).
    revert Ha. apply consistent_same; reflexivity.
Qed.

Lemma on_skin_selected_frame (net : Net) (self : App) :
  current_champion_data (on_skin_selected net self).1
    = current_champion_data self
  /\ cmb_skin_values (on_skin_selected net self).1 = cmb_skin_values self
  /\ var_skin (on_skin_selected net self).1 = var_skin self.
Proof.
  unfold on_skin_selected.
  destruct (_ || _); [auto|].
  destruct (current_champion_data self) as [[data|t e]|] eqn:Hd; [|auto|auto].
  destruct (find_skin (detail_skins data) (var_skin self)); [|auto].
  match goal with
  | |- context [_show_image_async ?n ?p ?s] =>
      destruct (show_image_async_app n p s) as [-> | ->]
  end; cbn; auto.
Qed.

Lemma on_skin_selected_consistent (net : Net) (a : App) (name : string) :
  consistent a -> In name (cmb_skin_values a) ->
  consistent (on_skin_selected net (set_var_skin name a)).1.
Proof.
  intros Ha Hin. destruct (consistent_listed _ _ Ha Hin) as (d & Hd & _).
  destruct (on_skin_selected_frame net (set_var_skin name a))
    as (Hdata & Hlist & _).
  apply (consistent_loaded a _ d Hd); [| |exact Ha].
  - rewrite Hdata. exact Hd.
  - rewrite Hlist. reflexivity.
Qed.

Lemma on_chroma_selected_consistent (net : Net) (a : App) :
  consistent a -> consistent (on_chroma_selected net a).1.
Proof.
  destruct (on_chroma_selected_app net a) as [-> | ->]; [auto|].
  apply consistent_same; reflexivity.
Qed.

Lemma reachable_inv (a : App) : reachable a -> consistent a.
Proof.
  induction 1 as [ | a summary _ IH | a name _ IH Hin | a net cid _ IH Hshape
                 | a net name _ IH Hin | a net name _ IH Hin
                 | a pil net url _ IH
                 | a files events os os_name net cache champ skin _ IH ].
  - cbn. auto.
  - revert IH. apply consistent_same; destruct summary; reflexivity.
  - revert IH. apply consistent_same;
      unfold on_champion_selected; cbn [var_champion set_var_champion champions];
      destruct (String.eqb name ""); try reflexivity;
      destruct (find_champion _ _); reflexivity.
  - apply load_champ_data_consistent; assumption.
  - apply on_skin_selected_consistent; assumption.
  - apply on_chroma_selected_consistent.
    destruct (consistent_chroma_listed _ _ IH Hin) as [d Hd].
    apply (consistent_loaded a _ d Hd); [exact Hd|reflexivity|exact IH].
  - apply show_image_task_same, IH.
  - revert IH. apply consistent_same;
      unfold download_task; cbn [dk_files dk_app];
      destruct (Download.download_zip _ _ _ _ _ _) as [[p|e] f]; reflexivity.
Qed.

(** The selected skin, if any, is one of the listed skins. *)
Lemma skin_listed_same (a a' : App) :
  var_skin a' = var_skin a ->
  cmb_skin_values a' = cmb_skin_values a ->
  var_skin a = "" \/ In (var_skin a) (cmb_skin_values a) ->
  var_skin a' = "" \/ In (var_skin a') (cmb_skin_values a').
Proof. intros -> ->. auto. Qed.

(** X15. As long as every champion document the API returns has the
    documented shape, and when every handler and every background task
    runs to its end before the next one starts, every state the user
    can reach is consistent: the skin selector lists exactly the
    selectable skins of the loaded champion document, and as long as no
    document is loaded the skin and chroma selectors and variables are
    empty.  Moreover the selected skin is empty or one of the listed
    skins. *)
Theorem reachable_consistent (a : App) :
  reachable a ->
  consistent a
  /\ (var_skin a = "" \/ In (var_skin a) (cmb_skin_values a)).
Proof.
  intros Hreach. split; [apply reachable_inv, Hreach|].
  induction Hreach as [ | a summary _ IH | a name _ IH Hin
                      | a net cid Hr IH Hshape
                      | a net name Hr IH Hin | a net name _ IH Hin
                      | a pil net url _ IH
                      | a files events os os_name net cache champ skin _ IH ].
  - left. reflexivity.
  - revert IH. apply skin_listed_same; destruct summary; reflexivity.
  - revert IH. apply skin_listed_same;
      unfold on_champion_selected; cbn [var_champion set_var_champion champions];
      destruct (String.eqb name ""); try reflexivity;
      destruct (find_champion _ _); reflexivity.
  - destruct (get_champion_detail net cid) as [[d|t e]|e] eqn:Hget.
    + rewrite (load_champ_data_ok _ _ _ _ Hget). left. reflexivity.
    + destruct (Hshape t e eq_refl).
    + rewrite (load_champ_data_raise _ _ _ _ Hget). exact IH.
  - destruct (on_skin_selected_frame net (set_var_skin name a))
      as (_ & Hlist & Hvar).
    right. rewrite Hvar, Hlist. exact Hin.
  - destruct (on_chroma_selected_app net (set_var_chroma name a)) as [-> | ->];
      exact IH.
  - revert IH. apply skin_listed_same;
      unfold show_image_task, show_image_task_in;
      destruct (show_image_try _ _ _ _); reflexivity.
  - revert IH. apply skin_listed_same;
      unfold download_task; cbn [dk_files dk_app];
      destruct (Download.download_zip _ _ _ _ _ _) as [[p|e] f]; reflexivity.
Qed.

Lemma cdragon_shape (cid : Z) (truthy : bool) (e : Exn) :
  get_champion_detail cdragon cid <> Ok (Other truthy e).
Proof.
  unfold get_champion_detail, fetch_json, Requests.get, cdragon. cbn.
  destruct (String.eqb _ _); [discriminate|].
  destruct (String.eqb _ _); discriminate.
Qed.

Lemma ruby_reachable : reachable ruby_picked.
Proof.
  unfold ruby_picked, kda_picked.
  apply reach_pick_chroma.
  - apply reach_pick_skin.
    + apply reach_load; [apply reach_init|apply cdragon_shape].
    + vm_compute. auto.
  - vm_compute. auto.
Qed.

Lemma reachable_consistent_witness :
  consistent ruby_picked
  /\ (var_skin ruby_picked = ""
      \/ In (var_skin ruby_picked) (cmb_skin_values ruby_picked)).
Proof.
  apply (reachable_consistent ruby_picked). apply ruby_reachable.
Defined.

(** X16. In every state the user can reach that way,
    [on_chroma_selected] never raises the [TypeError] or [KeyError] of
    subscripting a missing or ill-shaped document, because a chroma is
    only ever selected once a document is loaded: the only exception it
    can raise is the one the existence check of the preview lets
    through, and on a network that lets none through it returns. *)
Theorem reachable_chroma_selected (net : Net) (a : App) :
  reachable a ->
  (forall e, (on_chroma_selected net a).2 = Raise e ->
     exc_class e = LocationParseError
     /\ exists url, check_url_exists net url = Raise e)
  /\ (no_leak net -> exists tasks, (on_chroma_selected net a).2 = Ok tasks).
Proof.
  intros Hreach. apply reachable_inv in Hreach.
  assert (Hraise : forall e, (on_chroma_selected net a).2 = Raise e ->
            exists url, check_url_exists net url = Raise e).
  { intros e Hr.
    destruct (on_chroma_selected_raises _ _ _ Hr)
      as [(Hnone & Hne & _)|[(t & Hother & _)|Hcheck]]; [| |exact Hcheck];
      unfold consistent in Hreach.
    - rewrite Hnone in Hreach. destruct Hreach as (_ & _ & _ & Hv). contradiction.
    - rewrite Hother in Hreach. destruct Hreach. }
  split.
  - intros e Hr. destruct (Hraise e Hr) as [url Hc].
    split; [|eauto]. apply (check_url_exists_raise _ _ _ Hc).
  - intros Hleak. destruct (on_chroma_selected net a).2 as [tasks|e] eqn:Hr;
      [eauto|].
    destruct (Hraise e eq_refl) as [url Hc].
    destruct (check_url_exists_raise _ _ _ Hc) as [_ Hl].
    destruct (Hleak _ _ _ Hl).
Qed.

Lemma reachable_chroma_selected_witness :
  (forall e, (on_chroma_selected cdragon ruby_picked).2 = Raise e ->
     exc_class e = LocationParseError
     /\ exists url, check_url_exists cdragon url = Raise e)
  /\ (no_leak cdragon ->
      exists tasks, (on_chroma_selected cdragon ruby_picked).2 = Ok tasks).
Proof.
  apply (reachable_chroma_selected cdragon ruby_picked). apply ruby_reachable.
Defined.

Lemma selectable_skins_In (skins : list Skin) (name : string) :
  In name (selectable_skins skins) -> In name (map skin_name skins).
Proof.
  unfold selectable_skins. rewrite !in_map_iff.
  intros (s & Hs & Hin). exists s. split; [exact Hs|].
  apply filter_In in Hin. tauto.
Qed.

(** X17. In every state the user can reach that way, every name listed
    in the skin selector that is not empty is found when it is picked:
    [on_skin_selected] finds a skin of the loaded document with that
    name and refreshes the chroma selector from it, to its chroma names
    or to the placeholder alone, even when the preview request that
    follows raises. *)
Theorem reachable_listed_skin_found (net : Net) (a : App) (name : string) :
  reachable a ->
  In name (cmb_skin_values a) ->
  name <> "" ->
  exists d skin,
    current_champion_data a = Some (Detail d)
    /\ find_skin (detail_skins d) name = Some skin
    /\ skin_name skin = name
    /\ cmb_chroma_values (on_skin_selected net (set_var_skin name a)).1
       = match map chroma_name (default [] (skin_chromas skin)) with
         | [] => [PLACEHOLDER]
         | names => names
         end.
Proof.
  intros Hreach Hin Hne. apply reachable_inv in Hreach.
  destruct (consistent_listed _ _ Hreach Hin) as (d & Hd & Hsel).
  destruct (find_skin_some _ _ (selectable_skins_In _ _ Hsel))
    as (skin & Hfind & Hname).
  exists d, skin. repeat split; try assumption.
  rewrite (on_skin_selected_found net (set_var_skin name a) d skin);
    [|exact Hne|exact Hd|exact Hfind].
  match goal with
  | |- context [_show_image_async ?n ?p ?s] =>
      destruct (show_image_async_app n p s) as [-> | ->]
  end; cbn; destruct (map chroma_name _); reflexivity.
Qed.

Lemma reachable_listed_skin_found_witness :
  exists d skin,
    current_champion_data (_load_champ_data cdragon 103 init_app)
      = Some (Detail d)
    /\ find_skin (detail_skins d) "Midnight Ahri" = Some skin
    /\ skin_name skin = "Midnight Ahri"
    /\ cmb_chroma_values
         (on_skin_selected cdragon
            (set_var_skin "Midnight Ahri"
               (_load_champ_data cdragon 103 init_app))).1
       = match map chroma_name (default [] (skin_chromas skin)) with
         | [] => [PLACEHOLDER]
         | names => names
         end.
Proof.
  apply (reachable_listed_skin_found cdragon
           (_load_champ_data cdragon 103 init_app) "Midnight Ahri").
  - apply reach_load; [apply reach_init|].
    intros truthy e. vm_compute. discriminate.
  - vm_compute. right. left. reflexivity.
  - discriminate.
Defined.

End Reachable.

(** ** Interleaved threads *)

Section TornState.
Import Fetch SkinChangerApp Threads Race Torn Session.

Lemma step_store (net : Net) (cid : Z) (sk : list string) (d : ChampionDetail)
    (a : App) :
  get_champion_detail net cid = Ok (Detail d) ->
  step net (mkThread cid L179 sk) a
    = (mkThread cid L180 sk, set_current_champion_data (Some (Detail d)) a).
Proof. intros Hd. unfold step, load_store. cbn. rewrite Hd. reflexivity. Qed.

(** X18. Between two statements of [_load_champ_data] another thread
    can run.  With champion A picked and then champion B, and both
    fetches successful, there is an interleaving after which both
    threads have ended, the loaded document is B's and the skin
    selector lists A's skins: whenever the two lists differ, the state
    is not consistent, although every state reached without
    interleaving is. *)
Theorem interleaving_tears_state
    (net : Net) (a0 : App) (A B : string) (cA cB : Champion)
    (dA dB : ChampionDetail) :
  A <> "" -> B <> "" ->
  find_champion (champions a0) A = Some cA ->
  find_champion (champions a0) B = Some cB ->
  get_champion_detail net (champ_id cA) = Ok (Detail dA) ->
  get_champion_detail net (champ_id cB) = Ok (Detail dB) ->
  let s := run net torn_schedule
             (select_champion B (select_champion A (mkSys a0 []))) in
  finished s = true
  /\ var_champion (sys_app s) = B
  /\ current_champion_data (sys_app s) = Some (Detail dB)
  /\ cmb_skin_values (sys_app s) = selectable_skins (detail_skins dA)
  /\ (selectable_skins (detail_skins dA) <> selectable_skins (detail_skins dB) ->
      ~ consistent (sys_app s)).
Proof.
  intros HA HB HfA HfB HdA HdB. cbv zeta.
  rewrite (select_champion_found A cA (mkSys a0 []) HA HfA).
  set (s1 := mkSys _ _).
  rewrite (select_champion_found B cB s1 HB HfB).
  subst s1. cbn [sys_app sys_threads app].
  set (a2 := set_var_status _ (set_var_champion B _)).
  set (tA := mkThread (champ_id cA) L179 []).
  set (tB := mkThread (champ_id cB) L179 []).
  change torn_schedule
    with (replicate 2 0%nat ++ replicate 7 1%nat ++ replicate 5 0%nat)%list.
  rewrite !run_app.
  (* thread 0: lines 179 and 180 *)
  rewrite (run_replicate net 0 2 (mkSys a2 [tA; tB]) tA eq_refl).
  assert (H1 : steps net 2 tA a2
               = (mkThread (champ_id cA) L181 (selectable_skins (detail_skins dA)),
                  set_current_champion_data (Some (Detail dA)) a2)).
  { subst tA. cbn [steps]. rewrite (step_store _ _ _ _ _ HdA). reflexivity. }
  cbn [sys_threads sys_app]. rewrite H1. cbn [fst snd].
  change (<[0%nat := ?t]> [tA; tB]) with [t; tB].
  (* thread 1: all of its statements *)
  set (tA1 := mkThread (champ_id cA) L181 _).
  rewrite (run_replicate net 1 7 (mkSys _ [tA1; tB]) tB eq_refl).
  cbn [sys_app sys_threads].
  destruct (steps_load_champ_data net (champ_id cB) []
              (set_current_champion_data (Some (Detail dA)) a2)) as [Hb Hbe].
  fold tB in Hb, Hbe.
  destruct (steps net 7 tB (set_current_champion_data (Some (Detail dA)) a2))
    as [tB1 aB]. cbn [fst snd] in *.
  rewrite (load_champ_data_ok _ _ _ _ HdB) in Hb. subst aB.
  change (<[1%nat := tB1]> [tA1; tB]) with [tA1; tB1].
  (* thread 0: lines 181 to 185 *)
  rewrite (run_replicate net 0 5 (mkSys _ [tA1; tB1]) tA1 eq_refl).
  cbn [sys_app sys_threads]. subst tA1. cbn [steps step lt_line goto lt_skins lt_cid].
  cbn [fst snd].
  change (<[0%nat := ?t]> [?x; tB1]) with [t; tB1].
  split.
  { unfold finished. cbn. rewrite Hbe. reflexivity. }
  split; [reflexivity|]. split; [reflexivity|]. split; [reflexivity|].
  intros Hneq Hcons. unfold consistent in Hcons. cbn in Hcons. congruence.
Qed.

Lemma interleaving_tears_state_witness :
  let s := run cdragon torn_schedule
             (select_champion "Zed" (select_champion "Ahri" (mkSys loaded_app []))) in
  finished s = true
  /\ var_champion (sys_app s) = "Zed"
  /\ current_champion_data (sys_app s) = Some (Detail zed)
  /\ cmb_skin_values (sys_app s) = selectable_skins (detail_skins ahri)
  /\ (selectable_skins (detail_skins ahri) <> selectable_skins (detail_skins zed) ->
      ~ consistent (sys_app s)).
Proof.
  apply (interleaving_tears_state cdragon loaded_app "Ahri" "Zed"
           (mkChampion 103 "Ahri") (mkChampion 238 "Zed") ahri zed).
  - discriminate.
  - discriminate.
  - reflexivity.
  - reflexivity.
  - reflexivity.
  - reflexivity.
Defined.

End TornState.

(** ** Downloading after a change of champion *)

Section DownloadAfterChange.
Import Fetch SkinChangerApp Desk.

(** X19. Picking another champion does not reset the selected skin until
    its detail fetch succeeds.  With a skin selected, a download asked
    for while that fetch is in flight, or after it failed, is started
    for the new champion together with the skin selected under the
    previous one; once the fetch has succeeded the skin variable is
    empty and the download is refused with the warning. *)
Theorem download_after_champion_change
    (net : Net) (d : Desktop) (name : string) (champ : Champion) :
  name <> "" ->
  find_champion (champions (dk_app d)) name = Some champ ->
  var_skin (dk_app d) <> "" ->
  let a1 := (on_champion_selected (set_var_champion name (dk_app d))).1 in
  let a2 := _load_champ_data net (champ_id champ) a1 in
  let desk a := mkDesktop a (dk_files d) (dk_events d) in
  (download_selected_skin (desk a1)).2 = Some (name, var_skin (dk_app d))
  /\ (forall e, get_champion_detail net (champ_id champ) = Raise e ->
        (download_selected_skin (desk a2)).2
          = Some (name, var_skin (dk_app d)))
  /\ (forall doc, get_champion_detail net (champ_id champ) = Ok (Detail doc) ->
        (download_selected_skin (desk a2)).2 = None).
Proof.
  intros Hne Hfind Hskin. cbv zeta.
  rewrite (on_champion_selected_found _ _ _ Hne Hfind). cbn [fst].
  assert (Hjob : forall a,
            var_champion a = name -> var_skin a = var_skin (dk_app d) ->
            (download_selected_skin (mkDesktop a (dk_files d) (dk_events d))).2
              = Some (name, var_skin (dk_app d))).
  { intros a Hc Hs. unfold download_selected_skin. cbn [dk_app]. rewrite Hc, Hs.
    destruct (String.eqb_spec name "") as [|_]; [contradiction|].
    destruct (String.eqb_spec (var_skin (dk_app d)) "") as [|_]; [contradiction|].
    reflexivity. }
  split; [apply Hjob; reflexivity|]. split.
  - intros e He. rewrite (load_champ_data_raise _ _ _ _ He).
    apply Hjob; reflexivity.
  - intros doc Hdoc. rewrite (load_champ_data_ok _ _ _ _ Hdoc).
    unfold download_selected_skin. cbn.
    destruct (String.eqb name ""); reflexivity.
Qed.

Lemma download_after_champion_change_witness :
  let d := mkDesktop (set_var_skin "Dynasty Ahri" ahri_listed) ∅ [] in
  let a1 := (on_champion_selected (set_var_champion "Zed" (dk_app d))).1 in
  let a2 := _load_champ_data cdragon 238 a1 in
  let desk a := mkDesktop a (dk_files d) (dk_events d) in
  (download_selected_skin (desk a1)).2 = Some ("Zed", "Dynasty Ahri")
  /\ (forall e, get_champion_detail cdragon 238 = Raise e ->
        (download_selected_skin (desk a2)).2 = Some ("Zed", "Dynasty Ahri"))
  /\ (forall doc, get_champion_detail cdragon 238 = Ok (Detail doc) ->
        (download_selected_skin (desk a2)).2 = None).
Proof.
  apply (download_after_champion_change cdragon
           (mkDesktop (set_var_skin "Dynasty Ahri" ahri_listed) ∅ [])
           "Zed" (mkChampion 238 "Zed")).
  - discriminate.
  - reflexivity.
  - discriminate.
Defined.

End DownloadAfterChange.

(** ** A document of another shape *)

Section IllShapedDocument.
Import Fetch SkinChangerApp.

(** X20. When the detail fetch answers with a JSON value that is not an
    object with a [skins] key, [_load_champ_data] has already stored it
    when line 180 raises: the status line shows the error, and the skin
    selector and the selected skin stay as they were, next to the new
    stored value.  From then on picking a real chroma raises that same
    error, and picking a skin raises it too when the stored value is
    truthy and does nothing when it is falsy. *)
Theorem ill_shaped_document_is_stored
    (pil : Imaging) (net : Net) (self : App) (name : string)
    (champ : Champion) (truthy : bool) (e : Exn) :
  name <> "" ->
  find_champion (champions self) name = Some champ ->
  get_champion_detail net (champ_id champ) = Ok (Other truthy e) ->
  let a := pick_and_load pil net name self in
  current_champion_data a = Some (Other truthy e)
  /\ var_status a = "Erreur chargement skins : " ++ str_exn e
  /\ cmb_skin_values a = cmb_skin_values self
  /\ var_skin a = var_skin self
  /\ (forall net' skin,
        skin <> "" ->
        on_skin_selected net' (set_var_skin skin a)
          = (set_var_skin skin a, if truthy then Raise e else Ok []))
  /\ (forall net' chroma,
        chroma <> "" -> chroma <> PLACEHOLDER ->
        on_chroma_selected net' (set_var_chroma chroma a)
          = (set_var_chroma chroma a, Raise e)).
Proof.
  intros Hne Hfind Hget. cbv zeta. unfold pick_and_load.
  rewrite (on_champion_selected_found _ _ _ Hne Hfind).
  cbn [foldl run_task]. unfold _load_champ_data, load_store. rewrite Hget.
  cbn. repeat split.
  - intros net' skin Hskin. unfold on_skin_selected. cbn.
    destruct (String.eqb_spec skin "") as [|_]; [contradiction|].
    destruct truthy; reflexivity.
  - intros net' chroma Hc Hp. unfold on_chroma_selected. cbn.
    destruct (String.eqb_spec chroma PLACEHOLDER) as [|_]; [contradiction|].
    destruct (String.eqb_spec chroma "") as [|_]; [contradiction|].
    reflexivity.
Qed.

Lemma ill_shaped_document_is_stored_witness :
  let a := pick_and_load sample_pil cdragon_no_skins "Zed" ahri_listed in
  current_champion_data a = Some (Other true (mkExn KeyError "'skins'"))
  /\ var_status a = "Erreur chargement skins : " ++ "'skins'"
  /\ cmb_skin_values a = cmb_skin_values ahri_listed
  /\ var_skin a = var_skin ahri_listed
  /\ (forall net' skin,
        skin <> "" ->
        on_skin_selected net' (set_var_skin skin a)
          = (set_var_skin skin a, Raise (mkExn KeyError "'skins'")))
  /\ (forall net' chroma,
        chroma <> "" -> chroma <> PLACEHOLDER ->
        on_chroma_selected net' (set_var_chroma chroma a)
          = (set_var_chroma chroma a, Raise (mkExn KeyError "'skins'"))).
Proof.
  apply (ill_shaped_document_is_stored sample_pil cdragon_no_skins ahri_listed
           "Zed" (mkChampion 238 "Zed") true (mkExn KeyError "'skins'")).
  - discriminate.
  - reflexivity.
  - reflexivity.
Defined.

End IllShapedDocument.
